(** * Onboarding sessions of app/api/onboarding.py

    A shallow embedding of the session store ([_onb_path], [_new_onb],
    [_save_onb], [_load_onb], [_delete_onb]), the event log
    ([_append_log], [_console]) and the three request handlers
    ([ui_start_add_account], [ui_confirm_code], [ui_cancel]), followed by
    the properties of the login state machine.

    Modelling choices.
    - A Python [str] is a Rocq [string] holding its UTF-8 bytes.
    - A session id reaches a file through its path, [_ONB_DIR /
      f"{onb_id}.json"].  What the file system makes of that path is a
      [place]: an entry, where the store can write, read and unlink a
      file, or nothing a file could be at, in which case [exists()],
      [unlink()] and [write_text()] may raise.  Two ids may lead to one
      entry ([./5f0c] and [5f0c]); an id of the shape of [str(uuid4())]
      leads to the entry of that name.  How paths resolve does not change
      while requests run.  A file holds either the JSON object of a
      session or text that [json.loads] rejects.
    - The session dict is a record with one optional field per key
      ([None]: the key is absent), typed as the data model types it.
    - Python code runs in a state-and-exception monad over [world].
    - The instagrapi [Client], the account pool, the clock and [uuid4] are
      the environment of one request ([Env]).  A client method is a
      [behaviour]: it returns, raises, or first calls the installed
      [challenge_code_handler]. *)

From stdpp Require Import gmap strings list fin_maps.
From Stdlib Require Import ZArith Lia.

Local Open Scope string_scope.

(** ** Exceptions *)

(** The exception classes the handlers tell apart.  All of them derive from
    [Exception]; none of the classes named in an [except] clause derives
    from another one named there. *)
Inductive exn_class :=
  | ChallengeRequired
  | TwoFactorRequired
  | LoginRequired
  | TypeError
  | KeyError
  | OtherException (name : string).

(** An exception object: its class and [str(e)]. *)
Record exn := Exn { exn_cls : exn_class; exn_str : string }.

Definition is_ChallengeRequired (e : exn) : bool :=
  match exn_cls e with ChallengeRequired => true | _ => false end.
Definition is_TwoFactorRequired (e : exn) : bool :=
  match exn_cls e with TwoFactorRequired => true | _ => false end.
Definition is_TypeError (e : exn) : bool :=
  match exn_cls e with TypeError => true | _ => false end.

(** ** The session record *)

Inductive status := INIT | NEED_CODE | DONE | CANCELED.
Inductive flow := CHALLENGE | TWO_FACTOR.

(** [str(flow)] as an f-string prints it; JSON [null] loads as [None]. *)
Definition flow_str (f : option flow) : string :=
  match f with
  | None => "None"
  | Some CHALLENGE => "CHALLENGE"
  | Some TWO_FACTOR => "TWO_FACTOR"
  end.

(** The dict [data].  Field [d_k] is key ["k"]: [None] when the key is
    absent, [Some v] when it is present with value [v]; a JSON [null] value
    is an inner [None]. *)
Record onb_data := OnbData {
  d_id : option string;
  d_username : option string;
  d_password : option string;
  d_proxy : option (option string);
  d_status : option status;
  d_flow : option (option flow);
  d_logs : option (list string);
  d_created_at : option Z
}.

(** [{}] *)
Definition empty_dict : onb_data :=
  OnbData None None None None None None None None.

(** Truth value of a dict: false exactly for [{}]. *)
Definition dict_truthy (d : onb_data) : bool :=
  match d with
  | OnbData None None None None None None None None => false
  | _ => true
  end.

(** Truth value of [Optional[dict]]. *)
Definition truthy (data : option onb_data) : bool :=
  match data with
  | None => false
  | Some d => dict_truthy d
  end.

(** [x or {}] *)
Definition or_empty (data : option onb_data) : onb_data :=
  match data with
  | Some d => if dict_truthy d then d else empty_dict
  | None => empty_dict
  end.

(** Truth value of [Optional[str]]: false for [None] and for the empty
    string. *)
Definition str_truthy (s : option string) : bool :=
  match s with
  | None => false
  | Some EmptyString => false
  | Some _ => true
  end.

Definition set_status (d : onb_data) (s : status) : onb_data :=
  OnbData (d_id d) (d_username d) (d_password d) (d_proxy d)
          (Some s) (d_flow d) (d_logs d) (d_created_at d).
Definition set_flow (d : onb_data) (f : flow) : onb_data :=
  OnbData (d_id d) (d_username d) (d_password d) (d_proxy d)
          (d_status d) (Some (Some f)) (d_logs d) (d_created_at d).
Definition set_logs (d : onb_data) (l : list string) : onb_data :=
  OnbData (d_id d) (d_username d) (d_password d) (d_proxy d)
          (d_status d) (d_flow d) (Some l) (d_created_at d).

(** [data.get("logs", [])] *)
Definition get_logs (d : onb_data) : list string := default [] (d_logs d).

(** ** [str.strip()] on UTF-8 text *)

Definition ascii_space (c : nat) : bool :=
  (((9 <=? c) && (c <=? 13)) || ((28 <=? c) && (c <=? 32)))%nat.

(** The two-byte white-space characters U+0085 and U+00A0. *)
Definition space2 (c1 c2 : nat) : bool :=
  ((c1 =? 194) && ((c2 =? 133) || (c2 =? 160)))%nat.

(** The three-byte ones: U+1680, U+2000..U+200A, U+2028, U+2029, U+202F,
    U+205F and U+3000. *)
Definition space3 (c1 c2 c3 : nat) : bool :=
  (((c1 =? 225) && (c2 =? 154) && (c3 =? 128))
   || ((c1 =? 226) && (c2 =? 128)
       && (((128 <=? c3) && (c3 <=? 138)) || (c3 =? 168) || (c3 =? 169) || (c3 =? 175)))
   || ((c1 =? 226) && (c2 =? 129) && (c3 =? 159))
   || ((c1 =? 227) && (c2 =? 128) && (c3 =? 128)))%nat.

(** Drops one leading white-space character, if there is one. *)
Definition drop_space (l : list nat) : option (list nat) :=
  match l with
  | [] => None
  | c1 :: r1 =>
      if ascii_space c1 then Some r1 else
      match r1 with
      | [] => None
      | c2 :: r2 =>
          if space2 c1 c2 then Some r2 else
          match r2 with
          | [] => None
          | c3 :: r3 => if space3 c1 c2 c3 then Some r3 else None
          end
      end
  end.

(** The same, read from the end of the text (bytes in reverse order). *)
Definition drop_space_rev (l : list nat) : option (list nat) :=
  match l with
  | [] => None
  | c3 :: r1 =>
      if ascii_space c3 then Some r1 else
      match r1 with
      | [] => None
      | c2 :: r2 =>
          if space2 c2 c3 then Some r2 else
          match r2 with
          | [] => None
          | c1 :: r3 => if space3 c1 c2 c3 then Some r3 else None
          end
      end
  end.

Fixpoint drop_while (drop : list nat -> option (list nat)) (fuel : nat)
    (l : list nat) : list nat :=
  match fuel with
  | O => l
  | S fuel' =>
      match drop l with
      | Some r => drop_while drop fuel' r
      | None => l
      end
  end.

Definition bytes_of (s : string) : list nat :=
  map Ascii.nat_of_ascii (String.list_ascii_of_string s).
Definition string_of (l : list nat) : string :=
  String.string_of_list_ascii (map Ascii.ascii_of_nat l).

Definition strip (s : string) : string :=
  let l := bytes_of s in
  let l := drop_while drop_space (length l) l in
  let r := rev l in
  string_of (rev (drop_while drop_space_rev (length r) r)).

(** ** Paths and files *)

(** The shape of [str(uuid4())]: at most 36 characters, each a lowercase
    hexadecimal digit or a dash. *)
Definition hex_or_dash (c : Ascii.ascii) : bool :=
  let n := Ascii.nat_of_ascii c in
  (((48 <=? n) && (n <=? 57)) || ((97 <=? n) && (n <=? 102)) || (n =? 45))%nat.

Definition hex_name (s : string) : bool :=
  (String.length s <=? 36)%nat && forallb hex_or_dash (String.list_ascii_of_string s).

(** What the file system makes of the path of a session id:
    - [Place key]: the path leads to the directory entry [key], where a
      file may be or not;
    - [NoPlace on_exists on_unlink on_write]: the path leads to nothing a
      file could be at (a name too long, a directory that is not there).
      [p.exists()] raises [on_exists], or answers [False] when that is
      [None]; [p.unlink(missing_ok=True)] raises [on_unlink], or returns
      when that is [None]; [p.write_text(...)] raises [on_write]. *)
Inductive place :=
  | Place (key : string)
  | NoPlace (on_exists on_unlink : option exn) (on_write : exn).

(** What the code meets at the path of a session id, when there is
    something: a file that reading or [json.loads] rejects, a file with a
    JSON object, or a path [p.exists()] raises on. *)
Inductive file :=
  | Unreadable
  | Json (data : onb_data)
  | Inaccessible (e : exn).

(** The files as the file system presents them to this module.
    [_ONB_DIR] is [Path(Settings().session_dir) / "onboarding"]; the
    settings, [pathlib] and the file system are outside this file, so
    where a path leads is taken as given:
    - [entries]: the content of each entry that holds a file, [None] for
      content that reading or [json.loads] rejects;
    - [locate]: where the path [_ONB_DIR / f"{onb_id}.json"] leads;
    - [locate_plain]: a name of the shape of [str(uuid4())] is the name of
      an entry of [_ONB_DIR], the directory the module makes sure of when
      it is loaded ([_ONB_DIR.mkdir(parents=True, exist_ok=True)]). *)
Record directory := Directory {
  entries : gmap string (option onb_data);
  locate : string -> place;
  locate_plain : forall onb_id, hex_name onb_id = true -> locate onb_id = Place onb_id
}.

Definition stored_file (content : option onb_data) : file :=
  match content with
  | Some data => Json data
  | None => Unreadable
  end.

(** [dir !! onb_id]: what lies at the path of [onb_id]. *)
#[export] Instance directory_lookup : Lookup string file directory :=
  fun onb_id dir =>
    match locate dir onb_id with
    | Place key => stored_file <$> entries dir !! key
    | NoPlace (Some e) _ _ => Some (Inaccessible e)
    | NoPlace None _ _ => None
    end.

(** [<[onb_id := f]> dir]: the file [f] written at the path of [onb_id].
    Nothing is written where the path leads to no entry. *)
#[export] Instance directory_insert : Insert string file directory :=
  fun onb_id f dir =>
    match locate dir onb_id, f with
    | Place key, Json data =>
        Directory (<[key := Some data]> (entries dir)) (locate dir) (locate_plain dir)
    | Place key, Unreadable =>
        Directory (<[key := None]> (entries dir)) (locate dir) (locate_plain dir)
    | _, _ => dir
    end.

(** [delete onb_id dir]: the file at the path of [onb_id] removed, if
    there is one. *)
#[export] Instance directory_delete : Delete string directory :=
  fun onb_id dir =>
    match locate dir onb_id with
    | Place key =>
        Directory (delete key (entries dir)) (locate dir) (locate_plain dir)
    | NoPlace _ _ _ => dir
    end.

(** Whether the paths of two ids lead to one entry. *)
Definition same_file (dir : directory) (i j : string) : bool :=
  match locate dir i, locate dir j with
  | Place k, Place k' => bool_decide (k = k')
  | _, _ => false
  end.

(** A file system for the examples.  Its only directory is [_ONB_DIR]:
    a name of at most 255 bytes with its [.json] is an entry of it, a
    longer one is refused with [ENAMETOOLONG] by [stat], [unlink] and
    [open] alike; [./name] is [name]; any other id with a slash names a
    directory that is not there, and an id with a NUL byte cannot be
    encoded, which [exists()] reads as [False] and [unlink] and [open]
    raise as [ValueError]. *)
Definition name_too_long : exn :=
  Exn (OtherException "OSError") "[Errno 36] File name too long".

Definition no_such_file : exn :=
  Exn (OtherException "FileNotFoundError") "[Errno 2] No such file or directory".

Definition embedded_null : exn :=
  Exn (OtherException "ValueError") "embedded null byte".

Definition has_byte (n : nat) (s : string) : bool :=
  existsb (fun c => (Ascii.nat_of_ascii c =? n)%nat) (String.list_ascii_of_string s).

Definition flat_name (name : string) : place :=
  if has_byte 47 name then NoPlace None None no_such_file
  else if (250 <? String.length name)%nat
  then NoPlace (Some name_too_long) (Some name_too_long) name_too_long
  else Place name.

Definition flat (onb_id : string) : place :=
  if hex_name onb_id then Place onb_id
  else if has_byte 0 onb_id then NoPlace None (Some embedded_null) embedded_null
  else if String.prefix "./" onb_id
  then flat_name (String.substring 2 (String.length onb_id - 2) onb_id)
  else flat_name onb_id.

Definition flat_plain (onb_id : string) (H : hex_name onb_id = true) :
  flat onb_id = Place onb_id.
Proof. unfold flat. by rewrite H. Qed.

(** The empty directory of that file system. *)
#[export] Instance directory_empty : Empty directory := Directory ∅ flat flat_plain.

#[export] Instance directory_singleton : SingletonM string file directory :=
  fun onb_id f => <[onb_id := f]> ∅.

(** ** Worlds and the monad *)

(** A call on the provider client, as the client sees it. *)
Inductive call :=
  | SetProxy (proxy : string)
  | Login (username password : string)
  | TwoFactorLogin (code : string)
  | ChallengeResolve (code : string)
  | ChallengeResolveKw (code : string).

(** The state a request runs in:
    - [files]: the files, by the session id whose path leads to them;
    - [saved]: every record [_save_onb] wrote so far, oldest first;
    - [provider_calls]: every client method call so far, oldest first;
    - [registrations]: every [pool.add_account] call so far, oldest first;
    - [clock_reads]: how often the clock was read. *)
Record world := World {
  files : directory;
  saved : list (string * onb_data);
  provider_calls : list call;
  registrations : list (string * string * option string);
  clock_reads : nat
}.

Inductive result (A : Type) :=
  | Ok (a : A)
  | Raise (e : exn).
Arguments Ok {A} a.
Arguments Raise {A} e.

Definition M (A : Type) : Type := world -> world * result A.

#[export] Instance M_ret : MRet M := fun A a w => (w, Ok a).
#[export] Instance M_bind : MBind M := fun A B k c w =>
  match c w with
  | (w', Ok a) => k a w'
  | (w', Raise e) => (w', Raise e)
  end.

Definition raise {A} (e : exn) : M A := fun w => (w, Raise e).

(** [try: body / except ...: handler e].  [handler e = None] when no
    clause matches [e], which then propagates. *)
Definition try_except {A} (body : M A) (handler : exn -> option (M A)) : M A :=
  fun w =>
    match body w with
    | (w', Ok a) => (w', Ok a)
    | (w', Raise e) =>
        match handler e with
        | Some h => h w'
        | None => (w', Raise e)
        end
    end.

(** ** The environment of a request *)

(** What the installed handler gave back to the client. *)
Inductive handler_result :=
  | HReturned (code : string)
  | HRaised (e : exn).

(** How a client method call unfolds: it returns a value (of which the
    code only takes the truth value), raises, or calls
    [challenge_code_handler(username, choice)] and goes on from what the
    handler did.  [chosen] is the text [getattr(choice, "value",
    str(choice))] formats to. *)
Inductive behaviour :=
  | Returns (ok : bool)
  | Raises (e : exn)
  | Solicits (chosen : string) (k : handler_result -> behaviour).

(** A fresh [Client()].  [manual_input_code] is the handler the library
    installs by default. *)
Record Client := {
  set_proxy : string -> behaviour;
  login : string -> string -> behaviour;
  two_factor_login : string -> behaviour;
  challenge_resolve : string -> behaviour;
  challenge_resolve_kw : string -> behaviour;
  manual_input_code : string -> handler_result
}.

Record struct_time := { tm_hour : nat; tm_min : nat; tm_sec : nat }.

Record Env := {
  (** [time.localtime()] at the n-th reading of the clock *)
  localtime : nat -> struct_time;
  (** [int(time.time())] *)
  time_time : Z;
  (** [str(uuid4())], which has the shape of a uuid *)
  uuid4 : string;
  uuid4_plain : hex_name uuid4 = true;
  (** [Client()] *)
  cl : Client;
  (** what [pool.add_account] answers *)
  add_account : string -> string -> option string -> bool
}.

(** ** Session store *)

(** [_ONB_DIR / f"{onb_id}.json"], as far as the file system follows
    it. *)
Definition _onb_path (onb_id : string) (w : world) : place :=
  locate (files w) onb_id.

(** [write_text] raises where the path leads to no entry. *)
Definition _save_onb (onb_id : string) (data : onb_data) : M unit :=
  fun w =>
    match _onb_path onb_id w with
    | Place _ =>
        (World (<[onb_id := Json data]> (files w)) (saved w ++ [(onb_id, data)])
               (provider_calls w) (registrations w) (clock_reads w),
         Ok tt)
    | NoPlace _ _ e => (w, Raise e)
    end.

(** [None] when the file does not exist and when reading or parsing it
    raises.  [p.exists()] is called before the [try] statement: what it
    raises escapes. *)
Definition _load_onb (onb_id : string) : M (option onb_data) :=
  fun w =>
    match files w !! onb_id with
    | None => (w, Ok None)
    | Some (Inaccessible e) => (w, Raise e)
    | Some Unreadable => (w, Ok None)
    | Some (Json data) => (w, Ok (Some data))
    end.

(** [unlink(missing_ok=True)]: a missing file is no error; any other
    failure is raised. *)
Definition _delete_onb (onb_id : string) : M unit :=
  fun w =>
    match _onb_path onb_id w with
    | NoPlace _ (Some e) _ => (w, Raise e)
    | _ =>
        (World (delete onb_id (files w)) (saved w)
               (provider_calls w) (registrations w) (clock_reads w),
         Ok tt)
    end.

Definition _new_onb (env : Env) (username password : string)
    (proxy : option string) : M string :=
  let onb_id := uuid4 env in
  let data := {|
    d_id := Some onb_id;
    d_username := Some (strip username);
    d_password := Some password;
    d_proxy := Some (if str_truthy proxy then strip <$> proxy else None);
    d_status := Some INIT;
    d_flow := Some None;
    d_logs := Some [];
    d_created_at := Some (time_time env)
  |} in
  _save_onb onb_id data ;;
  mret onb_id.

(** ** Event log *)

Definition digit (n : nat) : Ascii.ascii := Ascii.ascii_of_nat (48 + n mod 10).

(** [%H], [%M], [%S]: two decimal digits (the fields of a local time are
    below 100). *)
Definition two_digits (n : nat) : string :=
  String (digit (n / 10)) (String (digit n) EmptyString).

(** [time.strftime("%H:%M:%S", t)] *)
Definition strftime_HMS (t : struct_time) : string :=
  two_digits (tm_hour t) +:+ ":" +:+ two_digits (tm_min t) +:+ ":"
  +:+ two_digits (tm_sec t).

(** [time.strftime("%H:%M:%S")]: reads the clock. *)
Definition strftime (env : Env) : M string :=
  fun w =>
    (World (files w) (saved w) (provider_calls w) (registrations w)
           (S (clock_reads w)),
     Ok (strftime_HMS (localtime env (clock_reads w)))).

(** [f"[{ts}] {msg}"] *)
Definition log_entry (ts msg : string) : string := "[" +:+ ts +:+ "] " +:+ msg.

Definition _append_log (env : Env) (onb_id msg : string) : M unit :=
  data ← _load_onb onb_id;
  match data with
  | Some d =>
      if dict_truthy d then
        ts ← strftime env;
        _save_onb onb_id (set_logs d (get_logs d ++ [log_entry ts msg]))
      else mret tt
  | None => mret tt
  end.

Definition newline : string := String (Ascii.ascii_of_nat 10) EmptyString.

(** [logs[-200:]] *)
Definition last_200 (logs : list string) : list string :=
  drop (length logs - 200) logs.

(** The text [_console] puts inside its [div]. *)
Definition _console (logs : list string) : string :=
  match logs with
  | [] => "[console] aguardando eventos…"
  | _ => String.concat newline (last_200 logs)
  end.

(** ** Responses *)

(** The pages the handlers answer with, by the values their bodies
    interpolate. *)
Inductive page :=
  | AccountAdded (username : string)
  | Confirm2FA (username onb_id console : string)
  | VerifyCode (onb_id console : string)
  | StartError (message console : string)
  | SessionExpired
  | Completed (username : string)
  | VerifyError (message onboarding_id console : string)
  | Canceled.

(** The [title] each page is rendered with. *)
Definition title (p : page) : string :=
  match p with
  | AccountAdded _ => "Conta adicionada"
  | Confirm2FA _ _ _ => "Confirmar 2FA"
  | VerifyCode _ _ => "Verificar código"
  | StartError _ _ => "Erro"
  | SessionExpired => "Sessão expirada"
  | Completed _ => "Concluído"
  | VerifyError _ _ _ => "Erro na verificação"
  | Canceled => "Cancelado"
  end.

(** The outcome vocabulary of the specification. *)
Inductive outcome :=
  | SUCCESS
  | NEEDS_CHALLENGE (session_id : string)
  | NEEDS_TWO_FACTOR (session_id : string)
  | FAILURE (session_id : option string) (message : string)
  | NOT_FOUND
  | CANCELED_.

(** The outcome each page stands for.  The source answers with HTML only;
    a page that carries a form for the session id carries that id. *)
Definition outcome_of (p : page) : outcome :=
  match p with
  | AccountAdded _ => SUCCESS
  | Confirm2FA _ onb_id _ => NEEDS_TWO_FACTOR onb_id
  | VerifyCode onb_id _ => NEEDS_CHALLENGE onb_id
  | StartError message _ => FAILURE None message
  | SessionExpired => NOT_FOUND
  | Completed _ => SUCCESS
  | VerifyError message onboarding_id _ => FAILURE (Some onboarding_id) message
  | Canceled => CANCELED_
  end.

(** ** Calling the provider and the pool *)

Definition lift_handler (h : string -> handler_result) (chosen : string) : M string :=
  match h chosen with
  | HReturned code => mret code
  | HRaised e => raise e
  end.

(** A client method at work under the installed handler. *)
Fixpoint run (b : behaviour) (handler : string -> M string) : M bool :=
  match b with
  | Returns ok => mret ok
  | Raises e => raise e
  | Solicits chosen k =>
      fun w =>
        match handler chosen w with
        | (w', Ok code) => run (k (HReturned code)) handler w'
        | (w', Raise e) => run (k (HRaised e)) handler w'
        end
  end.

(** A client method call: the client sees the call, then behaves. *)
Definition method (c : call) (b : behaviour) (handler : string -> M string) : M bool :=
  fun w =>
    run b handler
      (World (files w) (saved w) (provider_calls w ++ [c]) (registrations w)
             (clock_reads w)).

(** Modelled from the spec: [get_collection_service().account_pool
    .add_account], the Account Registration Sink, whose code is outside
    this file: [register(username, credential, proxy) -> bool]. *)
Definition pool_add_account (env : Env) (username password : string)
    (proxy : option string) : M bool :=
  fun w =>
    (World (files w) (saved w) (provider_calls w)
           (registrations w ++ [(username, password, proxy)]) (clock_reads w),
     Ok (add_account env username password proxy)).

(** [if proxy: try: cl.set_proxy(proxy); log ok / except Exception as e:
    log warn], shared in shape by start and confirm. *)
Definition configure_proxy (env : Env) (onb_id : string) (proxy : option string)
    (ok_msg warn_msg : string) : M unit :=
  match proxy with
  | Some p =>
      if str_truthy proxy then
        try_except
          (method (SetProxy p) (set_proxy (cl env) p)
                  (lift_handler (manual_input_code (cl env))) ;;
           _append_log env onb_id ok_msg)
          (fun e => Some (_append_log env onb_id (warn_msg +:+ exn_str e)))
      else mret tt
  | None => mret tt
  end.

(** ** Start *)

Definition _prelogin_handler (env : Env) (onb_id chosen : string) : M string :=
  _append_log env onb_id
    ("Challenge detectado (método: " +:+ chosen +:+ "). Aguardando código na interface…") ;;
  raise (Exn ChallengeRequired "awaiting_code_from_ui").

(** [(_load_onb(onb_id) or {}).get("logs", [])] *)
Definition load_logs (onb_id : string) : M (list string) :=
  data ← _load_onb onb_id;
  mret (get_logs (or_empty data)).

(** The [try] block of [ui_start_add_account] (source lines 186-207). *)
Definition start_try (env : Env) (onb_id username password : string)
    (proxy : option string) : M page :=
  _append_log env onb_id "Tentando login direto…" ;;
  ok ← method (Login username password) (login (cl env) username password)
              (_prelogin_handler env onb_id);
  if ok : bool then
    _append_log env onb_id "Login concluído com sucesso" ;;
    added ← pool_add_account env username password proxy;
    _append_log env onb_id
      (if added : bool then "Conta adicionada ao pool"
       else "Conta já no pool ou não pôde ser adicionada novamente") ;;
    _delete_onb onb_id ;;
    mret (AccountAdded username)
  else
    raise (Exn LoginRequired "Falha no login (sem desafio)").

(** Its [except] clauses, in order: [TwoFactorRequired],
    [ChallengeRequired], [Exception as e] (source lines 209-267). *)
Definition start_except (env : Env) (onb_id username : string) (e : exn) : M page :=
  if is_TwoFactorRequired e then
    data ← _load_onb onb_id;
    let data := or_empty data in
    let data := set_status data NEED_CODE in
    let data := set_flow data TWO_FACTOR in
    _save_onb onb_id data ;;
    _append_log env onb_id "⚠️ 2FA requerido (use o código do app autenticador/SMS)" ;;
    logs ← load_logs onb_id;
    mret (Confirm2FA username onb_id (_console logs))
  else if is_ChallengeRequired e then
    data ← _load_onb onb_id;
    let data := or_empty data in
    let data := set_status data NEED_CODE in
    let data := set_flow data CHALLENGE in
    _save_onb onb_id data ;;
    _append_log env onb_id "⚠️ Challenge requerido — Instagram enviará um código (email/SMS)" ;;
    _append_log env onb_id "Dica: verifique também a pasta de SPAM / promoções do e-mail." ;;
    logs ← load_logs onb_id;
    mret (VerifyCode onb_id (_console logs))
  else
    _append_log env onb_id ("[ERRO] Falha ao iniciar o login: " +:+ exn_str e) ;;
    logs ← load_logs onb_id;
    mret (StartError (exn_str e) (_console logs)).

Definition ui_start_add_account (env : Env) (username password : string)
    (proxy : option string) : M page :=
  onb_id ← _new_onb env username password proxy;
  _append_log env onb_id ("Iniciando login para @" +:+ username) ;;
  (match proxy with
   | Some p =>
       if str_truthy proxy
       then _append_log env onb_id ("Proxy informado: " +:+ p)
       else mret tt
   | None => mret tt
   end) ;;
  configure_proxy env onb_id proxy
    "Proxy configurado com sucesso" "[WARN] Proxy inválido: " ;;
  try_except
    (start_try env onb_id username password proxy)
    (fun e => Some (start_except env onb_id username e)).

(** ** Confirm *)

(** [data[key]]: raises [KeyError] when the key is absent. *)
Definition getitem {A} (v : option A) (key : string) : M A :=
  match v with
  | Some a => mret a
  | None => raise (Exn KeyError ("'" +:+ key +:+ "'"))
  end.

Definition _handler (env : Env) (onboarding_id code chosen : string) : M string :=
  _append_log env onboarding_id ("Instagram solicitou código via método: " +:+ chosen) ;;
  mret code.

(** The [TWO_FACTOR] branch (source lines 304-320). *)
Definition confirm_two_factor (env : Env) (onboarding_id username password code : string)
    : M unit :=
  try_except
    (method (Login username password) (login (cl env) username password)
            (lift_handler (manual_input_code (cl env))) ;;
     mret tt)
    (fun e => if is_TwoFactorRequired e then Some (mret tt) else None) ;;
  ok ← try_except
         (method (TwoFactorLogin code) (two_factor_login (cl env) code)
                 (lift_handler (manual_input_code (cl env))))
         (fun e => Some (
            _append_log env onboarding_id
              ("[WARN] two_factor_login falhou: " +:+ exn_str e) ;;
            mret false));
  if negb ok then raise (Exn LoginRequired "2FA não aceito")
  else _append_log env onboarding_id "2FA validado com sucesso".

(** The [CHALLENGE] branch (source lines 323-364). *)
Definition confirm_challenge (env : Env) (onboarding_id username password code : string)
    : M unit :=
  ok ← try_except
         (method (Login username password) (login (cl env) username password)
                 (_handler env onboarding_id code))
         (fun e =>
            if is_ChallengeRequired e then Some (mret false)
            else Some (
              _append_log env onboarding_id
                ("[WARN] login com handler falhou: " +:+ exn_str e) ;;
              mret false));
  ok ← (if negb ok then
          try_except
            (try_except
               (method (ChallengeResolve code) (challenge_resolve (cl env) code)
                       (_handler env onboarding_id code))
               (fun e =>
                  if is_TypeError e then Some (
                    method (ChallengeResolveKw code)
                           (challenge_resolve_kw (cl env) code)
                           (_handler env onboarding_id code))
                  else None))
            (fun e => Some (
               _append_log env onboarding_id
                 ("[WARN] challenge_resolve falhou: " +:+ exn_str e) ;;
               mret false))
        else mret ok);
  if negb ok then raise (Exn LoginRequired "Challenge não aceito")
  else _append_log env onboarding_id "Challenge validado com sucesso".

(** Registering in the pool and closing the session (source lines
    366-384). *)
Definition confirm_register (env : Env) (onboarding_id username password : string)
    (proxy : option string) : M page :=
  added ← pool_add_account env username password proxy;
  _append_log env onboarding_id
    (if added : bool then "Conta adicionada ao pool"
     else "Conta já estava no pool ou não pôde ser registrada novamente") ;;
  _delete_onb onboarding_id ;;
  mret (Completed username).

(** The outer [except Exception as e] (source lines 386-404). *)
Definition confirm_except (env : Env) (onboarding_id : string) (e : exn) : M page :=
  _append_log env onboarding_id
    ("[ERRO] Falha na confirmação do código: " +:+ exn_str e) ;;
  logs ← load_logs onboarding_id;
  mret (VerifyError (exn_str e) onboarding_id (_console logs)).

Definition ui_confirm_code (env : Env) (onboarding_id code : string) : M page :=
  data ← _load_onb onboarding_id;
  match data with
  | None => mret SessionExpired
  | Some data =>
  if negb (dict_truthy data) then mret SessionExpired else
    username ← getitem (d_username data) "username";
    password ← getitem (d_password data) "password";
    let proxy := mjoin (d_proxy data) in
    let flow := default (Some CHALLENGE) (d_flow data) in
    _append_log env onboarding_id
      ("Recebido código para @" +:+ username +:+ ". Tentando concluir "
       +:+ flow_str flow +:+ "…") ;;
    configure_proxy env onboarding_id proxy
      "Proxy configurado novamente para concluir verificação"
      "[WARN] Proxy inválido ao confirmar: " ;;
    try_except
      ((match flow with
        | Some TWO_FACTOR =>
            confirm_two_factor env onboarding_id username password code
        | _ => confirm_challenge env onboarding_id username password code
        end) ;;
       confirm_register env onboarding_id username password proxy)
      (fun e => Some (confirm_except env onboarding_id e))
  end.

(** ** Cancel *)

Definition ui_cancel (env : Env) (onboarding_id : string) : M page :=
  data ← _load_onb onboarding_id;
  (if truthy data then
     _append_log env onboarding_id "Sessão cancelada pelo usuário" ;;
     _delete_onb onboarding_id
   else mret tt) ;;
  mret Canceled.

(** ** Specification devices *)

(** What a client method call comes to when every call of the handler is
    answered by [answer]. *)
Fixpoint settle (b : behaviour) (answer : string -> handler_result) : result bool :=
  match b with
  | Returns ok => Ok ok
  | Raises e => Raise e
  | Solicits chosen k => settle (k (answer chosen)) answer
  end.

(** The answer of [_prelogin_handler]: it always raises. *)
Definition aborts (chosen : string) : handler_result :=
  HRaised (Exn ChallengeRequired "awaiting_code_from_ui").

(** The answer of [_handler]: it always returns the code. *)
Definition supplies (code chosen : string) : handler_result := HReturned code.

(** [d'] is [d] with log entries appended and nothing else changed. *)
Definition grown (d d' : onb_data) : Prop :=
  d_id d' = d_id d /\ d_username d' = d_username d /\ d_password d' = d_password d
  /\ d_proxy d' = d_proxy d /\ d_status d' = d_status d /\ d_flow d' = d_flow d
  /\ d_created_at d' = d_created_at d
  /\ exists extra : list string, get_logs d' = (get_logs d ++ extra)%list.

(** A file after log appends only: a session is still a session, grown;
    anything else is untouched. *)
Definition file_grown (f f' : option file) : Prop :=
  match f with
  | Some (Json d) =>
      if dict_truthy d
      then exists d', f' = Some (Json d') /\ dict_truthy d' = true /\ grown d d'
      else f' = f
  | _ => f' = f
  end.

(** Nothing happened between [w] and [w'] but log appends and provider
    calls. *)
Definition log_only (w w' : world) : Prop :=
  (forall j, file_grown (files w !! j) (files w' !! j))
  /\ registrations w' = registrations w
  /\ locate (files w') = locate (files w).

(** The path of [onb_id] leads to an entry: the store can read, write and
    unlink there. *)
Definition placed (onb_id : string) (w : world) : Prop :=
  exists key, _onb_path onb_id w = Place key.

(** The invariant of the data model: [flow] is non-null iff
    [status == NEED_CODE]. *)
Definition flow_ok (d : onb_data) : Prop :=
  (exists f, d_flow d = Some (Some f)) <-> d_status d = Some NEED_CODE.

Definition store_ok (w : world) : Prop :=
  (forall j d, files w !! j = Some (Json d) -> flow_ok d)
  /\ Forall (fun jd => flow_ok jd.2) (saved w).

(** The three requests of the interface. *)
Inductive request :=
  | Start (username password : string) (proxy : option string)
  | Confirm (onboarding_id code : string)
  | Cancel (onboarding_id : string).

Definition handle (env : Env) (r : request) : M page :=
  match r with
  | Start username password proxy => ui_start_add_account env username password proxy
  | Confirm onboarding_id code => ui_confirm_code env onboarding_id code
  | Cancel onboarding_id => ui_cancel env onboarding_id
  end.


(** The shape [dd:dd:dd]. *)
Definition is_digit (c : Ascii.ascii) : bool :=
  let n := Ascii.nat_of_ascii c in ((48 <=? n) && (n <=? 57))%nat.

Definition colon : Ascii.ascii := Ascii.ascii_of_nat 58.

Definition hms_shape (s : string) : bool :=
  match s with
  | String h1 (String h2 (String c1 (String m1 (String m2
      (String c2 (String s1 (String s2 EmptyString))))))) =>
      is_digit h1 && is_digit h2 && Ascii.eqb c1 colon && is_digit m1
      && is_digit m2 && Ascii.eqb c2 colon && is_digit s1 && is_digit s2
  | _ => false
  end.

(** The calls [configure_proxy] makes on the client. *)
Definition proxy_calls (proxy : option string) : list call :=
  match proxy with
  | Some p => if str_truthy proxy then [SetProxy p] else []
  | None => []
  end.

(** The empty directory, before any request. *)
Definition initial : world := World ∅ [] [] [] 0.

(** [c] moves every world along [R]. *)
Definition steps (R : relation world) {A} (c : M A) : Prop :=
  forall w, R w (c w).1.

(** The worlds related by keeping the observation [f]. *)
Definition keeps {B} (f : world -> B) : relation world :=
  fun w w' => f w' = f w.

(** The worlds related by carrying the property [P] over. *)
Definition carries (P : world -> Prop) : relation world :=
  fun w w' => P w -> P w'.

(** A handler's answer as the result of the handler call. *)
Definition answer_result (a : handler_result) : result string :=
  match a with
  | HReturned code => Ok code
  | HRaised e => Raise e
  end.

(** Log appends only, and no provider call. *)
Definition quiet (w w' : world) : Prop :=
  log_only w w' /\ provider_calls w' = provider_calls w.

(** The world without the file of [onb_id]. *)
Definition without (onb_id : string) (w : world) : world :=
  World (delete onb_id (files w)) (saved w) (provider_calls w) (registrations w)
        (clock_reads w).

(** What the explicit challenge resolution comes to under [_handler]:
    the positional call, and the named one when the positional call raises
    [TypeError]. *)
Definition fallback (env : Env) (code : string) : result bool :=
  match settle (challenge_resolve (cl env) code) (supplies code) with
  | Ok resolved => Ok resolved
  | Raise e =>
      if is_TypeError e
      then settle (challenge_resolve_kw (cl env) code) (supplies code)
      else Raise e
  end.

(** The calls of the explicit challenge resolution. *)
Definition fallback_calls (env : Env) (code : string) : list call :=
  ChallengeResolve code ::
  match settle (challenge_resolve (cl env) code) (supplies code) with
  | Ok _ => []
  | Raise e => if is_TypeError e then [ChallengeResolveKw code] else []
  end.

(** Whether the login under [_handler] yields success. *)
Definition login_succeeds (env : Env) (username password code : string) : bool :=
  match settle (login (cl env) username password) (supplies code) with
  | Ok ok => ok
  | Raise _ => false
  end.

(** Whether the explicit challenge resolution yields success. *)
Definition fallback_succeeds (env : Env) (code : string) : bool :=
  match fallback env code with
  | Ok resolved => resolved
  | Raise _ => false
  end.

(** Whether the second factor is accepted: the login under the default
    handler returns or raises [TwoFactorRequired], and
    [two_factor_login(code)] returns a true value. *)
Definition two_factor_accepted (env : Env) (username password code : string) : bool :=
  let resolved :=
    match settle (two_factor_login (cl env) code) (manual_input_code (cl env)) with
    | Ok ok => ok
    | Raise _ => false
    end in
  match settle (login (cl env) username password) (manual_input_code (cl env)) with
  | Ok _ => resolved
  | Raise e => if is_TwoFactorRequired e then resolved else false
  end.

(** Whether the provider accepts the code, by the flow confirm takes. *)
Definition code_accepted (env : Env) (fl : option flow)
    (username password code : string) : bool :=
  match fl with
  | Some TWO_FACTOR => two_factor_accepted env username password code
  | _ => login_succeeds env username password code || fallback_succeeds env code
  end.

(** A handler that only logs, to the session of [onb_id], and always
    answers the same. *)
Definition tame (onb_id : string) (handler : string -> M string)
    (answer : string -> handler_result) : Prop :=
  (forall chosen, steps quiet (handler chosen))
  /\ (forall chosen w, placed onb_id w ->
        (handler chosen w).2 = answer_result (answer chosen)).

(** The outcome a handler's result stands for, if it answered a page. *)
Definition outcome_of_result (r : result page) : option outcome :=
  match r with
  | Ok p => Some (outcome_of p)
  | Raise _ => None
  end.

(** ** Sample environments *)

Module Sample.

(** A clock at 09:05. *)
Definition clock (n : nat) : struct_time :=
  {| tm_hour := 9; tm_min := 5; tm_sec := n mod 60 |}.

(** No terminal is attached: the default handler fails. *)
Definition no_terminal (chosen : string) : handler_result :=
  HRaised (Exn (OtherException "EOFError") "EOF when reading a line").

Definition client (on_login on_two_factor on_resolve on_resolve_kw : behaviour)
    : Client :=
  {| set_proxy := fun _ => Returns false;
     login := fun _ _ => on_login;
     two_factor_login := fun _ => on_two_factor;
     challenge_resolve := fun _ => on_resolve;
     challenge_resolve_kw := fun _ => on_resolve_kw;
     manual_input_code := no_terminal |}.

Definition env (c : Client) : Env :=
  {| localtime := clock;
     time_time := 1700000000;
     uuid4 := "5f0c";
     uuid4_plain := eq_refl;
     cl := c;
     add_account := fun _ _ _ => true |}.

(** A login that asks for a challenge code and lets the handler's
    exception through; given a code, it succeeds on 123456. *)
Definition asks_code : behaviour :=
  Solicits "1" (fun a =>
    match a with
    | HRaised e => Raises e
    | HReturned code => Returns (String.eqb code "123456")
    end).

Definition two_factor_required : exn := Exn TwoFactorRequired "Two-factor authentication required".

(** A provider that asks for a second factor at login and accepts no
    code. *)
Definition strict_two_factor : Client :=
  client (Raises two_factor_required) (Returns false) (Returns false) (Returns false).

(** A provider that asks for a challenge code at login and whose
    [challenge_resolve] only takes the named argument. *)
Definition challenging : Client :=
  client asks_code (Returns false) (Raises (Exn TypeError "unexpected argument"))
         (Returns false).

(** A provider whose login succeeds at once. *)
Definition welcoming : Client :=
  client (Returns true) (Returns true) (Returns true) (Returns true).

(** A provider whose login returns a false value. *)
Definition refusing : Client :=
  client (Returns false) (Returns false) (Returns false) (Returns false).

(** A session as start leaves it when a code is needed. *)
Definition session (f : flow) : onb_data :=
  {| d_id := Some "5f0c";
     d_username := Some "bob";
     d_password := Some "pw";
     d_proxy := Some None;
     d_status := Some NEED_CODE;
     d_flow := Some (Some f);
     d_logs := Some ["[09:05:00] Iniciando login para @bob"];
     d_created_at := Some 1700000000%Z |}.

(** The directory with that one session. *)
Definition waiting (f : flow) : world :=
  World {[ "5f0c" := Json (session f) ]} [] [] [] 1.

(** A session as start leaves it after a login that failed without a
    challenge. *)
Definition init_session : onb_data :=
  {| d_id := Some "5f0c";
     d_username := Some "bob";
     d_password := Some "pw";
     d_proxy := Some None;
     d_status := Some INIT;
     d_flow := Some None;
     d_logs := Some ["[09:05:00] Iniciando login para @bob"];
     d_created_at := Some 1700000000%Z |}.

Definition abandoned : world :=
  World {[ "5f0c" := Json init_session ]} [] [] [] 1.

(** The directory with one unreadable file. *)
Definition corrupted : world :=
  World {[ "5f0c" := Unreadable ]} [] [] [] 0.

(** An id of 300 characters, as a request may carry in its form. *)
Definition long_id : string := string_of (replicate 300 97).

End Sample.

(** ** Further specification devices *)

(** The session id a request addresses. *)
Definition target (env : Env) (r : request) : string :=
  match r with
  | Start _ _ _ => uuid4 env
  | Confirm onboarding_id _ => onboarding_id
  | Cancel onboarding_id => onboarding_id
  end.

(** The message start reports when the login fails without asking for a
    code: a false return value, or an exception that is neither
    [TwoFactorRequired] nor [ChallengeRequired]. *)
Definition start_failure_message (env : Env) (username password : string)
    : option string :=
  match settle (login (cl env) username password) aborts with
  | Ok true => None
  | Ok false => Some "Falha no login (sem desafio)"
  | Raise e =>
      if is_TwoFactorRequired e || is_ChallengeRequired e then None
      else Some (exn_str e)
  end.

(** The outcome start comes to, by what the login does under the
    pre-login handler. *)
Definition start_outcome (env : Env) (username password : string) : outcome :=
  match settle (login (cl env) username password) aborts with
  | Ok true => SUCCESS
  | Ok false => FAILURE None "Falha no login (sem desafio)"
  | Raise e =>
      if is_TwoFactorRequired e then NEEDS_TWO_FACTOR (uuid4 env)
      else if is_ChallengeRequired e then NEEDS_CHALLENGE (uuid4 env)
      else FAILURE None (exn_str e)
  end.

(** What [_new_onb] stores of the proxy. *)
Definition stored_proxy (proxy : option string) : option string :=
  if str_truthy proxy then strip <$> proxy else None.

(** The calls of the [TWO_FACTOR] branch: the login, then
    [two_factor_login] unless the login raised something other than
    [TwoFactorRequired]. *)
Definition two_factor_calls (env : Env) (username password code : string)
    : list call :=
  Login username password ::
  match settle (login (cl env) username password) (manual_input_code (cl env)) with
  | Ok _ => [TwoFactorLogin code]
  | Raise e => if is_TwoFactorRequired e then [TwoFactorLogin code] else []
  end.

(** [_append_log] called once per message, in order. *)
Fixpoint append_logs (env : Env) (onb_id : string) (msgs : list string) : M unit :=
  match msgs with
  | [] => mret tt
  | msg :: rest => _append_log env onb_id msg ;; append_logs env onb_id rest
  end.

(** The entries of messages logged from the n-th reading of the clock
    on. *)
Fixpoint entries_from (env : Env) (n : nat) (msgs : list string) : list string :=
  match msgs with
  | [] => []
  | msg :: rest =>
      log_entry (strftime_HMS (localtime env n)) msg :: entries_from env (S n) rest
  end.

(** How the paths of session ids resolve. *)
Definition paths (w : world) : string -> place := locate (files w).

(** The worlds related by leaving alone what [j] finds, and how paths
    resolve, as long as [i] and [j] do not lead to one entry. *)
Definition apart (i j : string) : relation world :=
  fun w w' =>
    same_file (files w) i j = false ->
    files w' !! j = files w !! j /\ paths w' = paths w.

(** The flow start suspends the session in, by the exception of the
    login. *)
Definition suspended_flow (e : exn) : option flow :=
  if is_TwoFactorRequired e then Some TWO_FACTOR
  else if is_ChallengeRequired e then Some CHALLENGE
  else None.

(** ** Further sample worlds *)

Module Scenario.

(** A provider that asks for a second factor at login and accepts the
    code. *)
Definition lenient_two_factor : Client :=
  Sample.client (Raises Sample.two_factor_required) (Returns true)
                (Returns false) (Returns false).

(** A provider whose login fails with a network error. *)
Definition unreachable : Client :=
  Sample.client (Raises (Exn (OtherException "ConnectionError") "connection refused"))
                (Returns false) (Returns false) (Returns false).

(** The record start would save had the session file vanished before the
    [except] clause ran: only status and flow. *)
Definition partial : onb_data := set_flow (set_status empty_dict NEED_CODE) CHALLENGE.

Definition partial_world : world :=
  World {[ "5f0c" := Json partial ]} [] [] [] 0.

(** Two sessions waiting for a code. *)
Definition two_sessions : world :=
  World (<[ "a1b2" := Json (Sample.session TWO_FACTOR) ]>
           {[ "5f0c" := Json (Sample.session CHALLENGE) ]}) [] [] [] 2.

End Scenario.

(** * Properties *)

Local Open Scope list_scope.

(** ** The monad *)

Lemma bind_ok {A B} (c : M A) (k : A -> M B) w w' a :
  c w = (w', Ok a) -> (c ≫= k) w = k a w'.
Proof. intros H. unfold mbind, M_bind. by rewrite H. Qed.

(** ** Time stamps *)

Lemma digit_is_digit n : is_digit (digit n) = true.
Proof.
  unfold digit. pose proof (Nat.mod_upper_bound n 10) as Hlt.
  destruct (n mod 10) as [|[|[|[|[|[|[|[|[|[|k]]]]]]]]]]; try reflexivity. lia.
Qed.

Lemma strftime_HMS_shape t : hms_shape (strftime_HMS t) = true.
Proof.
  unfold strftime_HMS, two_digits.
  repeat match goal with
  | |- context [digit ?n] =>
      let H := fresh "H" in
      pose proof (digit_is_digit n) as H; generalize dependent (digit n); intros
  end.
  simpl. by repeat match goal with H : is_digit _ = true |- _ => rewrite H; clear H end.
Qed.

(** ** Paths and the directory *)

Lemma lookup_at (dir : directory) (onb_id : string) :
  dir !! onb_id
  = match locate dir onb_id with
    | Place key => stored_file <$> entries dir !! key
    | NoPlace (Some e) _ _ => Some (Inaccessible e)
    | NoPlace None _ _ => None
    end.
Proof. reflexivity. Qed.

Lemma locate_insert (i : string) (f : file) (dir : directory) :
  locate (<[i := f]> dir) = locate dir.
Proof.
  unfold insert, directory_insert.
  by destruct (locate dir i) as [k|x y z], f.
Qed.

Lemma locate_delete (i : string) (dir : directory) :
  locate (delete i dir) = locate dir.
Proof.
  unfold delete, directory_delete. by destruct (locate dir i) as [k|x y z].
Qed.

(** A file written at the path of [i] is what every id of the same entry
    then finds, and no other id. *)
Lemma dir_lookup_insert (i j : string) d (dir : directory) :
  (<[i := Json d]> dir) !! j
  = if same_file dir i j then Some (Json d) else dir !! j.
Proof.
  rewrite !lookup_at, locate_insert. unfold same_file, insert, directory_insert.
  destruct (locate dir i) as [k|x y z], (locate dir j) as [k'|x' y' z']; try done.
  simpl. case_bool_decide as H.
  - subst. by rewrite lookup_insert_eq.
  - by rewrite lookup_insert_ne.
Qed.

Lemma dir_lookup_delete (i j : string) (dir : directory) :
  (delete i dir) !! j = if same_file dir i j then None else dir !! j.
Proof.
  rewrite !lookup_at, locate_delete. unfold same_file, delete, directory_delete.
  destruct (locate dir i) as [k|x y z], (locate dir j) as [k'|x' y' z']; try done.
  simpl. case_bool_decide as H.
  - subst. by rewrite lookup_delete_eq.
  - by rewrite lookup_delete_ne.
Qed.

Lemma dir_delete_insert (i : string) d (dir : directory) :
  delete i (<[i := Json d]> dir) = delete i dir.
Proof.
  unfold delete, directory_delete, insert, directory_insert.
  destruct (locate dir i) as [k|x y z] eqn:E; simpl; rewrite E; [|done].
  by rewrite delete_insert_eq.
Qed.

Lemma same_file_place dir i key : locate dir i = Place key -> same_file dir i i = true.
Proof. intros H. unfold same_file. rewrite H. by apply bool_decide_eq_true. Qed.

(** Ids of one entry find the same file. *)
Lemma same_file_lookup (dir : directory) (i j : string) :
  same_file dir i j = true -> dir !! j = dir !! i.
Proof.
  unfold same_file. rewrite !lookup_at.
  destruct (locate dir i) as [k|x y z], (locate dir j) as [k'|x' y' z']; try done.
  intros H. apply bool_decide_eq_true in H. by subst.
Qed.

Lemma same_file_locate dir dir' i j :
  locate dir' = locate dir -> same_file dir' i j = same_file dir i j.
Proof. intros H. unfold same_file. by rewrite H. Qed.

(** A file found is at an entry. *)
Lemma lookup_json_place (dir : directory) (i : string) d :
  dir !! i = Some (Json d) -> exists key, locate dir i = Place key.
Proof.
  rewrite lookup_at. destruct (locate dir i) as [k|[e|] y z]; [by eexists|done..].
Qed.

Lemma lookup_unreadable_place (dir : directory) (i : string) :
  dir !! i = Some Unreadable -> exists key, locate dir i = Place key.
Proof.
  rewrite lookup_at. destruct (locate dir i) as [k|[e|] y z]; [by eexists|done..].
Qed.

(** At an entry [p.exists()] does not raise. *)
Lemma lookup_place_accessible (dir : directory) (i : string) key e :
  locate dir i = Place key -> dir !! i <> Some (Inaccessible e).
Proof.
  intros H. rewrite lookup_at, H.
  by destruct (entries dir !! key) as [[d|]|].
Qed.


Lemma placed_hex onb_id w : hex_name onb_id = true -> placed onb_id w.
Proof. intros H. exists onb_id. by apply locate_plain. Qed.

Lemma placed_uuid4 env w : placed (uuid4 env) w.
Proof. apply placed_hex, uuid4_plain. Qed.

Lemma placed_stored onb_id w d : files w !! onb_id = Some (Json d) -> placed onb_id w.
Proof. apply lookup_json_place. Qed.

Lemma placed_same_paths onb_id w w' :
  locate (files w') = locate (files w) -> placed onb_id w -> placed onb_id w'.
Proof. intros H [k Hk]. exists k. unfold _onb_path in *. by rewrite H. Qed.

(** After a delete no id of the entry finds a file. *)
Lemma lookup_delete_placed onb_id w :
  placed onb_id w -> delete onb_id (files w) !! onb_id = None.
Proof.
  intros [k Hk]. rewrite dir_lookup_delete.
  by rewrite (same_file_place _ _ _ Hk).
Qed.

Lemma lookup_insert_placed onb_id d w :
  placed onb_id w -> <[onb_id := Json d]> (files w) !! onb_id = Some (Json d).
Proof.
  intros [k Hk]. rewrite dir_lookup_insert.
  by rewrite (same_file_place _ _ _ Hk).
Qed.

Lemma placed_unreadable onb_id w :
  files w !! onb_id = Some Unreadable -> placed onb_id w.
Proof. apply lookup_unreadable_place. Qed.

Lemma placed_accessible onb_id w e :
  placed onb_id w -> files w !! onb_id <> Some (Inaccessible e).
Proof. intros [k Hk]. by eapply lookup_place_accessible. Qed.

(** ** The session store *)

Lemma dict_truthy_set_logs d l : dict_truthy (set_logs d l) = true.
Proof. by destruct d as [[] [] [] [] [] [] [] []]. Qed.

Lemma dict_truthy_set_flow d f : dict_truthy (set_flow d f) = true.
Proof. by destruct d as [[] [] [] [] [] [] [] []]. Qed.

Lemma load_absent onb_id w :
  files w !! onb_id = None -> _load_onb onb_id w = (w, Ok None).
Proof. intros H. unfold _load_onb. by rewrite H. Qed.

Lemma load_unreadable onb_id w :
  files w !! onb_id = Some Unreadable -> _load_onb onb_id w = (w, Ok None).
Proof. intros H. unfold _load_onb. by rewrite H. Qed.

Lemma load_json onb_id w d :
  files w !! onb_id = Some (Json d) -> _load_onb onb_id w = (w, Ok (Some d)).
Proof. intros H. unfold _load_onb. by rewrite H. Qed.

Lemma load_inaccessible onb_id w e :
  files w !! onb_id = Some (Inaccessible e) -> _load_onb onb_id w = (w, Raise e).
Proof. intros H. unfold _load_onb. by rewrite H. Qed.

Lemma delete_at onb_id w :
  placed onb_id w ->
  _delete_onb onb_id w =
    (World (delete onb_id (files w)) (saved w) (provider_calls w)
           (registrations w) (clock_reads w), Ok tt).
Proof. intros [k Hk]. unfold _delete_onb. by rewrite Hk. Qed.

Lemma save_at onb_id d w :
  placed onb_id w ->
  _save_onb onb_id d w =
    (World (<[onb_id := Json d]> (files w)) (saved w ++ [(onb_id, d)])
           (provider_calls w) (registrations w) (clock_reads w), Ok tt).
Proof. intros [k Hk]. unfold _save_onb. by rewrite Hk. Qed.

(** The world after one log append to the session [d] stored under
    [onb_id]. *)
Lemma append_log_at env onb_id msg w d :
  files w !! onb_id = Some (Json d) -> dict_truthy d = true ->
  _append_log env onb_id msg w =
    (World
       (<[onb_id := Json (set_logs d (get_logs d ++
            [log_entry (strftime_HMS (localtime env (clock_reads w))) msg]))]> (files w))
       (saved w ++ [(onb_id, set_logs d (get_logs d ++
            [log_entry (strftime_HMS (localtime env (clock_reads w))) msg]))])
       (provider_calls w) (registrations w) (S (clock_reads w)),
     Ok tt).
Proof.
  intros H Ht. unfold _append_log.
  rewrite (bind_ok _ _ _ _ _ (load_json _ _ _ H)). rewrite Ht.
  unfold mbind, M_bind, strftime.
  by rewrite save_at by exact (placed_stored _ _ _ H).
Qed.

Lemma append_log_falsy env onb_id msg w :
  (_load_onb onb_id w).2 = Ok None
  \/ (exists d, files w !! onb_id = Some (Json d) /\ dict_truthy d = false) ->
  _append_log env onb_id msg w = (w, Ok tt).
Proof.
  unfold _append_log, _load_onb, mbind, M_bind.
  intros [H | (d & H & Ht)].
  - destruct (files w !! onb_id) as [[|d|e]|]; simpl in *; try done.
  - rewrite H. by rewrite Ht.
Qed.

Lemma append_log_result env onb_id msg w :
  placed onb_id w -> (_append_log env onb_id msg w).2 = Ok tt.
Proof.
  intros Hp. destruct (files w !! onb_id) as [[|d|e]|] eqn:E.
  - by rewrite append_log_falsy by (left; by rewrite (load_unreadable _ _ E)).
  - destruct (dict_truthy d) eqn:Ht.
    + by rewrite (append_log_at _ _ _ _ _ E Ht).
    + by rewrite append_log_falsy by (right; by exists d).
  - by destruct (placed_accessible _ _ e Hp).
  - by rewrite append_log_falsy by (left; by rewrite (load_absent _ _ E)).
Qed.

(** ** Relations between the worlds before and after *)

Lemma grown_refl d : grown d d.
Proof. repeat split. exists []. by rewrite app_nil_r. Qed.

Lemma grown_trans d1 d2 d3 : grown d1 d2 -> grown d2 d3 -> grown d1 d3.
Proof.
  intros (?&?&?&?&?&?&?&x&Hx) (?&?&?&?&?&?&?&y&Hy).
  repeat split; try congruence.
  exists (x ++ y). by rewrite Hy, Hx, app_assoc.
Qed.

Lemma grown_set_logs d extra : grown d (set_logs d (get_logs d ++ extra)).
Proof. repeat split. by exists extra. Qed.

Lemma file_grown_refl f : file_grown f f.
Proof.
  destruct f as [[|d|e]|]; simpl; try done.
  destruct (dict_truthy d) eqn:E; [|done].
  exists d. split_and!; [done..|apply grown_refl].
Qed.

Lemma file_grown_trans f1 f2 f3 :
  file_grown f1 f2 -> file_grown f2 f3 -> file_grown f1 f3.
Proof.
  destruct f1 as [[|d1|e1]|]; simpl; try (intros -> ; done).
  destruct (dict_truthy d1) eqn:E1; [|intros ->; simpl; by rewrite E1].
  intros (d2 & -> & E2 & G2). simpl. rewrite E2.
  intros (d3 & -> & E3 & G3). exists d3. split_and!; [done..|].
  by eapply grown_trans.
Qed.

#[export] Instance log_only_preorder : PreOrder log_only.
Proof.
  split.
  - intros w. split; [intros j; apply file_grown_refl | done].
  - intros w1 w2 w3 (H1 & R1 & P1) (H2 & R2 & P2). split; [|split; congruence].
    intros j. eapply file_grown_trans; [apply H1 | apply H2].
Qed.

Lemma log_only_registrations w w' : log_only w w' -> registrations w' = registrations w.
Proof. by intros (_ & R & _). Qed.

Lemma placed_log_only onb_id w w' : log_only w w' -> placed onb_id w -> placed onb_id w'.
Proof. intros (_ & _ & P). by apply placed_same_paths. Qed.

#[export] Instance keeps_preorder {B} (f : world -> B) : PreOrder (keeps f).
Proof. split; unfold keeps; [by intros w | intros w1 w2 w3; congruence]. Qed.

#[export] Instance carries_preorder (P : world -> Prop) : PreOrder (carries P).
Proof. split; unfold carries; [by intros w | intros w1 w2 w3; tauto]. Qed.

Section Steps.
Context (R : relation world) `{!PreOrder R}.

Lemma steps_still {A} (c : M A) : (forall w, (c w).1 = w) -> steps R c.
Proof. intros H w. by rewrite H. Qed.

Lemma steps_ret {A} (a : A) : steps R (mret a).
Proof. by apply steps_still. Qed.

Lemma steps_raise {A} e : steps R (raise e : M A).
Proof. by apply steps_still. Qed.

Lemma steps_load onb_id : steps R (_load_onb onb_id).
Proof.
  apply steps_still. intros w. unfold _load_onb.
  by destruct (files w !! onb_id) as [[|d|e]|].
Qed.

Lemma steps_getitem {A} (v : option A) key : steps R (getitem v key).
Proof. apply steps_still. intros w. by destruct v. Qed.

Lemma steps_lift_handler h chosen : steps R (lift_handler h chosen).
Proof. apply steps_still. intros w. unfold lift_handler. by destruct (h chosen). Qed.

Lemma steps_bind {A B} (c : M A) (k : A -> M B) :
  steps R c -> (forall a, steps R (k a)) -> steps R (c ≫= k).
Proof.
  intros Hc Hk w. unfold mbind, M_bind. specialize (Hc w).
  destruct (c w) as [w' [a|e]]; simpl in *; [|done].
  etrans; [exact Hc | apply Hk].
Qed.

Lemma steps_try_except {A} (c : M A) h :
  steps R c -> (forall e k, h e = Some k -> steps R k) -> steps R (try_except c h).
Proof.
  intros Hc Hh w. unfold try_except. specialize (Hc w).
  destruct (c w) as [w' [a|e]]; simpl in *; [done|].
  destruct (h e) as [k|] eqn:E; [|done].
  etrans; [exact Hc | by eapply Hh].
Qed.

Lemma steps_run b handler :
  (forall chosen, steps R (handler chosen)) -> steps R (run b handler).
Proof.
  intros Hh. induction b as [ok|e|chosen k IH]; intros w; simpl.
  - reflexivity.
  - reflexivity.
  - specialize (Hh chosen w).
    destruct (handler chosen w) as [w' [code|e]]; simpl in *;
      (etrans; [exact Hh | apply IH]).
Qed.

Lemma steps_load_logs onb_id : steps R (load_logs onb_id).
Proof. apply steps_bind; [apply steps_load | intros; apply steps_ret]. Qed.
End Steps.

Create HintDb steps.

Ltac steps_go :=
  repeat first
    [ progress intros
    | solve [auto 2 with steps nocore]
    | apply steps_ret | apply steps_raise | apply steps_load | apply steps_getitem
    | apply steps_lift_handler | apply steps_load_logs
    | apply steps_bind | apply steps_try_except | apply steps_run
    | match goal with
      | |- PreOrder _ => apply _
      | H : _ = Some _ |- _ => progress (repeat case_match; simplify_eq)
      | |- steps _ (match ?x with _ => _ end) => destruct x
      end ].

(** *** Log appends *)

(** What a log append does, by what lies at the path of the id. *)
Lemma append_log_cases env onb_id msg w :
  (exists d, files w !! onb_id = Some (Json d) /\ dict_truthy d = true
     /\ _append_log env onb_id msg w =
        (World
           (<[onb_id := Json (set_logs d (get_logs d ++
                [log_entry (strftime_HMS (localtime env (clock_reads w))) msg]))]> (files w))
           (saved w ++ [(onb_id, set_logs d (get_logs d ++
                [log_entry (strftime_HMS (localtime env (clock_reads w))) msg]))])
           (provider_calls w) (registrations w) (S (clock_reads w)),
         Ok tt))
  \/ _append_log env onb_id msg w = (w, Ok tt)
  \/ exists e, files w !! onb_id = Some (Inaccessible e)
       /\ _append_log env onb_id msg w = (w, Raise e).
Proof.
  destruct (files w !! onb_id) as [[|d|e]|] eqn:E.
  - right. left. apply append_log_falsy. left. by rewrite (load_unreadable _ _ E).
  - destruct (dict_truthy d) eqn:Ht.
    + left. exists d. split_and!; [done..|]. by apply append_log_at.
    + right. left. apply append_log_falsy. right. by exists d.
  - right. right. exists e. split; [done|].
    unfold _append_log, mbind, M_bind. by rewrite (load_inaccessible _ _ _ E).
  - right. left. apply append_log_falsy. left. by rewrite (load_absent _ _ E).
Qed.

Lemma append_log_only env onb_id msg : steps log_only (_append_log env onb_id msg).
Proof.
  intros w.
  destruct (append_log_cases env onb_id msg w)
    as [(d & E & Ht & ->) | [-> | (e & _ & ->)]]; try reflexivity.
  split; [|split; [done | apply locate_insert]]. intros j. simpl.
  rewrite dir_lookup_insert. destruct (same_file (files w) onb_id j) eqn:Hs.
  - rewrite (same_file_lookup _ _ _ Hs), E. simpl. rewrite Ht.
    eexists. split_and!; [done|apply dict_truthy_set_logs|apply grown_set_logs].
  - apply file_grown_refl.
Qed.

Lemma append_log_keeps_calls env onb_id msg :
  steps (keeps provider_calls) (_append_log env onb_id msg).
Proof.
  intros w. unfold keeps.
  by destruct (append_log_cases env onb_id msg w)
    as [(d & E & Ht & ->) | [-> | (e & _ & ->)]].
Qed.

#[export] Hint Resolve append_log_only append_log_keeps_calls : steps.

Lemma method_log_only c b handler :
  (forall chosen, steps log_only (handler chosen)) -> steps log_only (method c b handler).
Proof.
  intros Hh w. unfold method.
  etrans; [|apply (steps_run log_only b handler Hh)].
  split; [intros j; apply file_grown_refl | done].
Qed.

Lemma method_calls c b handler w :
  (forall chosen, steps (keeps provider_calls) (handler chosen)) ->
  provider_calls (method c b handler w).1 = provider_calls w ++ [c].
Proof.
  intros Hh. unfold method.
  pose proof (steps_run (keeps provider_calls) b handler Hh) as H.
  by rewrite H.
Qed.

Lemma prelogin_handler_log_only env onb_id chosen :
  steps log_only (_prelogin_handler env onb_id chosen).
Proof. unfold _prelogin_handler. steps_go. Qed.

Lemma handler_log_only env onboarding_id code chosen :
  steps log_only (_handler env onboarding_id code chosen).
Proof. unfold _handler. steps_go. Qed.

Lemma prelogin_handler_keeps_calls env onb_id chosen :
  steps (keeps provider_calls) (_prelogin_handler env onb_id chosen).
Proof. unfold _prelogin_handler. steps_go. Qed.

Lemma handler_keeps_calls env onboarding_id code chosen :
  steps (keeps provider_calls) (_handler env onboarding_id code chosen).
Proof. unfold _handler. steps_go. Qed.

Lemma lift_handler_keeps_calls h chosen :
  steps (keeps provider_calls) (lift_handler h chosen).
Proof. steps_go. Qed.

#[export] Hint Resolve prelogin_handler_log_only handler_log_only
  prelogin_handler_keeps_calls handler_keeps_calls lift_handler_keeps_calls : steps.

Lemma configure_proxy_log_only env onb_id proxy ok_msg warn_msg :
  steps log_only (configure_proxy env onb_id proxy ok_msg warn_msg).
Proof.
  unfold configure_proxy. steps_go; apply method_log_only; steps_go.
Qed.

#[export] Hint Resolve configure_proxy_log_only : steps.

(** *** What the handlers answer *)

Lemma prelogin_handler_raises env onb_id chosen w :
  placed onb_id w ->
  (_prelogin_handler env onb_id chosen w).2
  = Raise (Exn ChallengeRequired "awaiting_code_from_ui").
Proof.
  intros Hp. unfold _prelogin_handler, mbind, M_bind.
  pose proof (append_log_result env onb_id
    ("Challenge detectado (método: " +:+ chosen +:+ "). Aguardando código na interface…")
    w Hp) as H.
  destruct (_append_log _ _ _ w) as [w' [[]|e]]; simpl in *; [done|congruence].
Qed.

Lemma handler_returns env onboarding_id code chosen w :
  placed onboarding_id w ->
  (_handler env onboarding_id code chosen w).2 = Ok code.
Proof.
  intros Hp. unfold _handler, mbind, M_bind.
  pose proof (append_log_result env onboarding_id
    ("Instagram solicitou código via método: " +:+ chosen) w Hp) as H.
  destruct (_append_log _ _ _ w) as [w' [[]|e]]; simpl in *; [done|congruence].
Qed.

(** A call comes to what [settle] says when the handler answers the same
    in every world it is called in. *)
Lemma run_settle b handler answer onb_id w :
  tame onb_id handler answer -> placed onb_id w ->
  (run b handler w).2 = settle b answer.
Proof.
  intros [Hq Ha]. revert w.
  induction b as [ok|e|chosen k IH]; intros w Hp; simpl; try done.
  pose proof (Hq chosen w) as [L _]. specialize (Ha chosen w Hp).
  destruct (handler chosen w) as [w' [code|e]]; simpl in *;
    destruct (answer chosen); simplify_eq/=; apply IH; by eapply placed_log_only.
Qed.

Lemma method_settle c b handler answer onb_id w :
  tame onb_id handler answer -> placed onb_id w ->
  (method c b handler w).2 = settle b answer.
Proof. intros Hh Hp. unfold method. by eapply run_settle. Qed.

(** ** The event log (C8) *)

(** C8.  [_append_log] on a stored session appends exactly one entry
    ["[HH:MM:SS] message"] at the end of the log, keeps every earlier entry
    in place, and saves the record again; on an id with no file it does
    nothing and does not raise. *)
Theorem append_log_appends_one_entry env onb_id msg w :
  (forall d, files w !! onb_id = Some (Json d) -> dict_truthy d = true ->
     exists ts d' w',
       _append_log env onb_id msg w = (w', Ok tt)
       /\ hms_shape ts = true
       /\ get_logs d' = get_logs d ++ ["[" +:+ ts +:+ "] " +:+ msg]
       /\ grown d d'
       /\ files w' = <[onb_id := Json d']> (files w)
       /\ saved w' = saved w ++ [(onb_id, d')])
  /\ (files w !! onb_id = None -> _append_log env onb_id msg w = (w, Ok tt)).
Proof.
  split.
  - intros d Hd Ht.
    exists (strftime_HMS (localtime env (clock_reads w))).
    eexists (set_logs d (get_logs d ++
      [log_entry (strftime_HMS (localtime env (clock_reads w))) msg])), _.
    split; [exact (append_log_at env onb_id msg w d Hd Ht)|].
    split_and!; [apply strftime_HMS_shape|reflexivity|apply grown_set_logs|done..].
  - intros H. apply append_log_falsy. left. by rewrite load_absent.
Qed.

(** ** Unknown and unreadable sessions (C4, C10) *)

Lemma confirm_no_session env onboarding_id code w :
  (_load_onb onboarding_id w).2 = Ok None ->
  ui_confirm_code env onboarding_id code w = (w, Ok SessionExpired).
Proof.
  unfold ui_confirm_code, _load_onb, mbind, M_bind.
  by destruct (files w !! onboarding_id) as [[|d|e]|].
Qed.

Lemma cancel_no_session env onboarding_id w :
  (_load_onb onboarding_id w).2 = Ok None ->
  ui_cancel env onboarding_id w = (w, Ok Canceled).
Proof.
  unfold ui_cancel, _load_onb, mbind, M_bind.
  by destruct (files w !! onboarding_id) as [[|d|e]|].
Qed.

Lemma confirm_inaccessible env onboarding_id code w e :
  files w !! onboarding_id = Some (Inaccessible e) ->
  ui_confirm_code env onboarding_id code w = (w, Raise e).
Proof.
  intros H. unfold ui_confirm_code, mbind, M_bind.
  by rewrite (load_inaccessible _ _ _ H).
Qed.

Lemma cancel_inaccessible env onboarding_id w e :
  files w !! onboarding_id = Some (Inaccessible e) ->
  ui_cancel env onboarding_id w = (w, Raise e).
Proof.
  intros H. unfold ui_cancel, mbind, M_bind.
  by rewrite (load_inaccessible _ _ _ H).
Qed.

(** C4, where the code parts from it.  [_load_onb] calls [p.exists()]
    before its [try] statement.  On an id whose path the file system
    refuses -- no session is stored under such an id -- what
    [p.exists()] raises escapes confirm: no page is answered, so no
    outcome at all, NOT_FOUND included.  The world is left as it was. *)
Theorem confirm_refused_path_raises env onboarding_id code w e :
  files w !! onboarding_id = Some (Inaccessible e) ->
  (forall d, files w !! onboarding_id <> Some (Json d))
  /\ ui_confirm_code env onboarding_id code w = (w, Raise e)
  /\ outcome_of_result (ui_confirm_code env onboarding_id code w).2 = None.
Proof.
  intros H. rewrite (confirm_inaccessible env onboarding_id code w e H).
  split_and!; [|done..]. intros d. by rewrite H.
Qed.

(** C10.  An unreadable file is handled as a missing one: load gives
    [None], confirm answers the expired-session page, cancel neither logs
    nor deletes, and a log append does nothing; each leaves the world as it
    was, with the file present as with the file removed. *)
Theorem unreadable_session_as_missing env onboarding_id code msg w :
  files w !! onboarding_id = Some Unreadable ->
  let w0 := without onboarding_id w in
  (_load_onb onboarding_id w = (w, Ok None)
   /\ _load_onb onboarding_id w0 = (w0, Ok None))
  /\ (ui_confirm_code env onboarding_id code w = (w, Ok SessionExpired)
      /\ ui_confirm_code env onboarding_id code w0 = (w0, Ok SessionExpired))
  /\ (ui_cancel env onboarding_id w = (w, Ok Canceled)
      /\ ui_cancel env onboarding_id w0 = (w0, Ok Canceled))
  /\ (_append_log env onboarding_id msg w = (w, Ok tt)
      /\ _append_log env onboarding_id msg w0 = (w0, Ok tt)).
Proof.
  intros H w0.
  assert (H0 : files w0 !! onboarding_id = None)
    by exact (lookup_delete_placed _ _ (placed_unreadable _ _ H)).
  pose proof (load_unreadable _ _ H) as L.
  pose proof (load_absent _ _ H0) as L0.
  split_and!; try done.
  - apply confirm_no_session. by rewrite L.
  - apply confirm_no_session. by rewrite L0.
  - apply cancel_no_session. by rewrite L.
  - apply cancel_no_session. by rewrite L0.
  - apply append_log_falsy. left. by rewrite L.
  - apply append_log_falsy. left. by rewrite L0.
Qed.

(** ** Cancel (C7) *)

(** C7, where the code parts from it.  Cancel loads the session first,
    and [_load_onb] calls [p.exists()] before its [try] statement.  On an
    id whose path the file system refuses, what [p.exists()] raises
    escapes cancel, the first time and the second: neither call answers
    the canceled page.  The world is left as it was. *)
Theorem cancel_refused_path_raises env1 env2 onboarding_id w e :
  files w !! onboarding_id = Some (Inaccessible e) ->
  let r1 := ui_cancel env1 onboarding_id w in
  let r2 := ui_cancel env2 onboarding_id r1.1 in
  r1 = (w, Raise e) /\ r2 = (w, Raise e)
  /\ outcome_of_result r1.2 = None /\ outcome_of_result r2.2 = None.
Proof.
  intros H r1 r2. subst r2 r1.
  rewrite (cancel_inaccessible env1 onboarding_id w e H). simpl.
  by rewrite (cancel_inaccessible env2 onboarding_id w e H).
Qed.

(** ** The flow invariant (C6) *)

Lemma flow_ok_need_code d f : flow_ok (set_flow (set_status d NEED_CODE) f).
Proof. unfold flow_ok. simpl. split; [done | by exists f]. Qed.

Lemma flow_ok_set_logs d l : flow_ok d -> flow_ok (set_logs d l).
Proof. done. Qed.

Lemma save_store_ok onb_id d :
  flow_ok d -> steps (carries store_ok) (_save_onb onb_id d).
Proof.
  intros Hd w [Hf Hs]. unfold _save_onb.
  destruct (_onb_path onb_id w) as [k|x y z]; [|done]. split; simpl.
  - intros j d'. rewrite dir_lookup_insert.
    destruct (same_file (files w) onb_id j); [by intros [= <-] | apply Hf].
  - apply Forall_app. split; [done | by constructor].
Qed.

Lemma delete_store_ok onb_id : steps (carries store_ok) (_delete_onb onb_id).
Proof.
  intros w [Hf Hs]. unfold _delete_onb.
  destruct (_onb_path onb_id w) as [k|x [e|] z]; [|done|];
    (split; simpl; [|done]; intros j d'; rewrite dir_lookup_delete;
     destruct (same_file (files w) onb_id j); [done | apply Hf]).
Qed.

Lemma strftime_store_ok env : steps (carries store_ok) (strftime env).
Proof. by intros w [Hf Hs]. Qed.

Lemma pool_store_ok env username password proxy :
  steps (carries store_ok) (pool_add_account env username password proxy).
Proof. by intros w [Hf Hs]. Qed.

Lemma append_log_store_ok env onb_id msg :
  steps (carries store_ok) (_append_log env onb_id msg).
Proof.
  intros w H.
  destruct (append_log_cases env onb_id msg w)
    as [(d & E & Ht & Ea) | [-> | (e & _ & ->)]]; try done.
  pose proof (save_store_ok onb_id _
                (flow_ok_set_logs d
                   (get_logs d ++
                    [log_entry (strftime_HMS (localtime env (clock_reads w))) msg])
                   (proj1 H _ _ E))
                (strftime env w).1 (strftime_store_ok env w H)) as Hs.
  rewrite save_at in Hs by exact (placed_stored _ _ _ E).
  by rewrite Ea.
Qed.

Lemma method_store_ok c b handler :
  (forall chosen, steps (carries store_ok) (handler chosen)) ->
  steps (carries store_ok) (method c b handler).
Proof.
  intros Hh w H. unfold method.
  apply (steps_run (carries store_ok) b handler Hh). by destruct H.
Qed.

#[export] Hint Resolve flow_ok_need_code save_store_ok delete_store_ok
  pool_store_ok append_log_store_ok method_store_ok : steps.

Lemma new_onb_store_ok env username password proxy :
  steps (carries store_ok) (_new_onb env username password proxy).
Proof.
  unfold _new_onb. steps_go. apply save_store_ok.
  unfold flow_ok. simpl. split; [by intros [f ?] | done].
Qed.

Lemma prelogin_handler_store_ok env onb_id chosen :
  steps (carries store_ok) (_prelogin_handler env onb_id chosen).
Proof. unfold _prelogin_handler. steps_go. Qed.

Lemma handler_store_ok env onboarding_id code chosen :
  steps (carries store_ok) (_handler env onboarding_id code chosen).
Proof. unfold _handler. steps_go. Qed.

#[export] Hint Resolve new_onb_store_ok prelogin_handler_store_ok
  handler_store_ok : steps.

Lemma configure_proxy_store_ok env onb_id proxy ok_msg warn_msg :
  steps (carries store_ok) (configure_proxy env onb_id proxy ok_msg warn_msg).
Proof. unfold configure_proxy. steps_go; apply method_store_ok; steps_go. Qed.

#[export] Hint Resolve configure_proxy_store_ok : steps.





(** ** Running a handler block by block *)

Lemma bind_eq {A B} (c : M A) (k : A -> M B) w X :
  c w = X ->
  (c ≫= k) w = match X with
               | (w', Ok a) => k a w'
               | (w', Raise e) => (w', Raise e)
               end.
Proof. intros <-. reflexivity. Qed.

Lemma try_eq {A} (c : M A) h w X :
  c w = X ->
  try_except c h w = match X with
                     | (w', Ok a) => (w', Ok a)
                     | (w', Raise e) =>
                         match h e with
                         | Some k => k w'
                         | None => (w', Raise e)
                         end
                     end.
Proof. intros <-. reflexivity. Qed.

#[export] Instance quiet_preorder : PreOrder quiet.
Proof.
  split.
  - intros w. split; reflexivity.
  - intros w1 w2 w3 [L1 P1] [L2 P2]. split; [by etrans | congruence].
Qed.

Lemma log_only_session w w' onb_id d :
  log_only w w' -> files w !! onb_id = Some (Json d) -> dict_truthy d = true ->
  exists d', files w' !! onb_id = Some (Json d') /\ dict_truthy d' = true /\ grown d d'.
Proof.
  intros [H _] Hd Ht. specialize (H onb_id). rewrite Hd in H. simpl in H.
  by rewrite Ht in H.
Qed.

Lemma placed_quiet onb_id w w' : quiet w w' -> placed onb_id w -> placed onb_id w'.
Proof. intros [L _]. by apply placed_log_only. Qed.

(** Finds that the path of an id leads to an entry: the id has the shape
    of a uuid, a session is stored under it, or it was so in an earlier
    world. *)
Ltac placed_go :=
  lazymatch goal with
  | |- placed ?i ?w =>
      first
        [ assumption
        | apply placed_uuid4
        | apply placed_hex; assumption
        | eapply placed_stored; eassumption
        | match goal with
          | H : placed i ?w0 |- _ =>
              apply (placed_same_paths i w0 w);
                [first [reflexivity | apply locate_insert | apply locate_delete]
                | exact H]
          end
        | match goal with
          | L : log_only ?w0 w |- _ => apply (placed_log_only i w0 w L); placed_go
          | Q : quiet ?w0 w |- _ => apply (placed_quiet i w0 w Q); placed_go
          end ]
  end.

Lemma append_quiet env onb_id msg w :
  placed onb_id w ->
  exists w', _append_log env onb_id msg w = (w', Ok tt) /\ quiet w w'.
Proof.
  intros Hp. exists (_append_log env onb_id msg w).1. split.
  - rewrite <- (append_log_result env onb_id msg w Hp).
    by destruct (_append_log env onb_id msg w).
  - split; [apply append_log_only | apply append_log_keeps_calls].
Qed.

Lemma append_exact env onb_id msg w d :
  files w !! onb_id = Some (Json d) -> dict_truthy d = true ->
  exists w' ts,
    _append_log env onb_id msg w = (w', Ok tt) /\ quiet w w'
    /\ files w' !! onb_id
       = Some (Json (set_logs d (get_logs d ++ [log_entry ts msg]))).
Proof.
  intros Hd Ht.
  destruct (append_quiet env onb_id msg w (placed_stored _ _ _ Hd)) as (w' & E & Q).
  exists w', (strftime_HMS (localtime env (clock_reads w))).
  split_and!; [done..|].
  rewrite (append_log_at _ _ _ _ _ Hd Ht) in E. simplify_eq. simpl.
  exact (lookup_insert_placed _ _ w (placed_stored _ _ _ Hd)).
Qed.

Lemma prelogin_handler_tame env onb_id :
  tame onb_id (_prelogin_handler env onb_id) aborts.
Proof.
  split; [|apply prelogin_handler_raises].
  intros chosen w. split; [apply prelogin_handler_log_only
                          | apply prelogin_handler_keeps_calls].
Qed.

Lemma handler_tame env onboarding_id code :
  tame onboarding_id (_handler env onboarding_id code) (supplies code).
Proof.
  split; [|apply handler_returns].
  intros chosen w. split; [apply handler_log_only | apply handler_keeps_calls].
Qed.

Lemma lift_handler_tame onb_id h : tame onb_id (lift_handler h) h.
Proof.
  split.
  - intros chosen. apply steps_still; [apply _|].
    intros w. unfold lift_handler. by destruct (h chosen).
  - intros chosen w _. unfold lift_handler. by destruct (h chosen).
Qed.

Lemma method_spec c b handler answer onb_id w :
  tame onb_id handler answer -> placed onb_id w ->
  exists w',
    method c b handler w = (w', settle b answer)
    /\ log_only w w' /\ provider_calls w' = provider_calls w ++ [c].
Proof.
  intros Ht Hp. pose proof Ht as [Hq Ha].
  exists (method c b handler w).1. split_and!.
  - rewrite <- (method_settle c b handler answer onb_id w Ht Hp).
    by destruct (method c b handler w).
  - apply method_log_only. intros chosen w0. apply Hq.
  - apply method_calls. intros chosen w0. apply Hq.
Qed.

Lemma configure_proxy_spec env onb_id proxy ok_msg warn_msg w :
  placed onb_id w ->
  exists w',
    configure_proxy env onb_id proxy ok_msg warn_msg w = (w', Ok tt)
    /\ log_only w w'
    /\ provider_calls w' = provider_calls w ++ proxy_calls proxy.
Proof.
  intros Hp. unfold configure_proxy, proxy_calls. destruct proxy as [p|].
  2: { exists w. split_and!; [done|reflexivity|by rewrite app_nil_r]. }
  destruct (str_truthy (Some p)).
  2: { exists w. split_and!; [done|reflexivity|by rewrite app_nil_r]. }
  destruct (method_spec (SetProxy p) (set_proxy (cl env) p) _ _ onb_id w
              (lift_handler_tame onb_id (manual_input_code (cl env))) Hp)
    as (w1 & E1 & L1 & P1).
  destruct (settle _ _) as [ok|e] eqn:Es.
  - destruct (append_quiet env onb_id ok_msg w1 ltac:(placed_go))
      as (w2 & E2 & [L2 P2]).
    exists w2. split_and!; [|by etrans|congruence].
    erewrite try_eq; [|erewrite bind_eq; [|exact E1]; exact E2]. done.
  - destruct (append_quiet env onb_id (warn_msg +:+ exn_str e) w1 ltac:(placed_go))
      as (w2 & E2 & [L2 P2]).
    exists w2. split_and!; [|by etrans|congruence].
    erewrite try_eq; [|erewrite bind_eq; [|exact E1]; reflexivity]. exact E2.
Qed.

(** Runs the first command of the computation in [E] by its specification
    [lem], which names the world after it.  Where the specification asks
    that the path of the session id lead to an entry, that is found in the
    context, and carried over to the new world. *)
Ltac step E lem :=
  lazymatch type of E with
  | (?c ≫= ?k) ?w = _ =>
      let w' := fresh "w" in
      let Ew := fresh "Ew" in
      let F := fresh "F" in
      lazymatch type of (lem w) with
      | placed ?i _ -> _ =>
          let Hp := fresh "Hp" in
          assert (Hp : placed i w) by placed_go;
          destruct (lem w Hp) as (w' & Ew & F);
          pose proof (placed_log_only i w w' (proj1 F) Hp)
      | _ => destruct (lem w) as (w' & Ew & F)
      end;
      rewrite (bind_eq c k w _ Ew) in E; clear Ew
  end.

(** Runs a delete or a save at an entry. *)
Ltac step_delete E :=
  lazymatch type of E with
  | (_delete_onb ?i ≫= ?k) ?w = _ =>
      let Hp := fresh "Hp" in
      assert (Hp : placed i w) by placed_go;
      rewrite (bind_eq _ k w _ (delete_at i w Hp)) in E; clear Hp
  end.

Ltac step_save E :=
  lazymatch type of E with
  | (_save_onb ?i ?d ≫= ?k) ?w = _ =>
      let Hp := fresh "Hp" in
      assert (Hp : placed i w) by placed_go;
      rewrite (bind_eq _ k w _ (save_at i d w Hp)) in E; clear Hp
  end.

(** Reads the world and the result off a computation that has come to its
    end. *)
Ltac finish E := unfold mret, M_ret, raise in E; simpl in E; simplify_eq.

Lemma pool_at env username password proxy w :
  pool_add_account env username password proxy w =
    (World (files w) (saved w) (provider_calls w)
           (registrations w ++ [(username, password, proxy)]) (clock_reads w),
     Ok (add_account env username password proxy)).
Proof. reflexivity. Qed.

Lemma load_logs_at onb_id w d :
  files w !! onb_id = Some (Json d) -> dict_truthy d = true ->
  load_logs onb_id w = (w, Ok (get_logs d)).
Proof.
  intros Hd Ht. unfold load_logs.
  rewrite (bind_eq _ _ _ _ (load_json _ _ _ Hd)). simpl. by rewrite Ht.
Qed.

(** ** Start (C1, C2) *)

(** The world [_new_onb] leaves. *)
Lemma new_onb_at env username password proxy w :
  exists d0 w1,
    _new_onb env username password proxy w = (w1, Ok (uuid4 env))
    /\ files w1 !! uuid4 env = Some (Json d0)
    /\ dict_truthy d0 = true
    /\ d_username d0 = Some (strip username)
    /\ d_password d0 = Some password
    /\ d_proxy d0 = Some (if str_truthy proxy then strip <$> proxy else None)
    /\ d_status d0 = Some INIT /\ d_flow d0 = Some None /\ d_logs d0 = Some []
    /\ registrations w1 = registrations w
    /\ provider_calls w1 = provider_calls w
    /\ (forall j, same_file (files w) (uuid4 env) j = false ->
          files w1 !! j = files w !! j)
    /\ locate (files w1) = locate (files w).
Proof.
  eexists _, _. split.
  { unfold _new_onb. erewrite bind_eq; [|apply save_at, placed_uuid4]. reflexivity. }
  simpl. split; [exact (lookup_insert_placed _ _ w (placed_uuid4 env w))|].
  split_and!; try done.
  - intros j Hj. by rewrite dir_lookup_insert, Hj.
  - apply locate_insert.
Qed.

(** The [try] block, by what the login comes to under the pre-login
    handler. *)
Lemma start_try_spec env onb_id username password proxy w :
  placed onb_id w ->
  match settle (login (cl env) username password) aborts with
  | Ok true =>
      exists w',
        start_try env onb_id username password proxy w
          = (w', Ok (AccountAdded username))
        /\ registrations w' = registrations w ++ [(username, password, proxy)]
        /\ files w' !! onb_id = None
  | Ok false =>
      exists w',
        start_try env onb_id username password proxy w
          = (w', Raise (Exn LoginRequired "Falha no login (sem desafio)"))
        /\ log_only w w'
  | Raise e =>
      exists w',
        start_try env onb_id username password proxy w = (w', Raise e)
        /\ log_only w w'
  end.
Proof.
  intros Hp0.
  destruct (start_try env onb_id username password proxy w) as [wf r] eqn:E.
  unfold start_try in E.
  step E (append_quiet env onb_id "Tentando login direto…").
  step E (fun w => method_spec (Login username password)
            (login (cl env) username password) _ _ onb_id w
            (prelogin_handler_tame env onb_id)).
  destruct F as [L _]. destruct F0 as [L0 P0].
  destruct (settle _ _) as [[|]|e].
  - step E (append_quiet env onb_id "Login concluído com sucesso").
    rewrite (bind_eq _ _ _ _ (pool_at _ _ _ _ _)) in E.
    step E (append_quiet env onb_id
              (if add_account env username password proxy
               then "Conta adicionada ao pool"
               else "Conta já no pool ou não pôde ser adicionada novamente")).
    step_delete E. finish E.
    destruct F as [L1 _]. destruct F0 as [L2 _].
    eexists. split; [reflexivity|]. simpl. split.
    + rewrite (log_only_registrations _ _ L2). simpl.
      by rewrite (log_only_registrations _ _ L1), (log_only_registrations _ _ L0),
        (log_only_registrations _ _ L).
    + apply lookup_delete_placed. placed_go.
  - finish E. eexists. split; [reflexivity|]. by etrans.
  - finish E. eexists. split; [reflexivity|]. by etrans.
Qed.

(** The [except TwoFactorRequired] clause on a stored session. *)
Lemma start_except_two_factor env onb_id username e w d :
  files w !! onb_id = Some (Json d) -> dict_truthy d = true ->
  is_TwoFactorRequired e = true ->
  exists w' ts,
    let d' := set_logs (set_flow (set_status d NEED_CODE) TWO_FACTOR)
                (get_logs d ++
                 [log_entry ts "⚠️ 2FA requerido (use o código do app autenticador/SMS)"]) in
    start_except env onb_id username e w
      = (w', Ok (Confirm2FA username onb_id (_console (get_logs d'))))
    /\ files w' !! onb_id = Some (Json d')
    /\ registrations w' = registrations w.
Proof.
  intros Hd Ht Hc.
  destruct (start_except env onb_id username e w) as [wf r] eqn:E.
  unfold start_except in E. rewrite Hc in E.
  rewrite (bind_eq _ _ _ _ (load_json _ _ _ Hd)) in E.
  unfold or_empty in E. rewrite Ht in E.
  step_save E.
  match type of E with
  | (_ ≫= _) ?wx = _ =>
      assert (files wx !! onb_id
              = Some (Json (set_flow (set_status d NEED_CODE) TWO_FACTOR))) as H1
        by exact (lookup_insert_placed _ _ w (placed_stored _ _ _ Hd));
      assert (registrations wx = registrations w) as R1 by reflexivity;
      remember wx as w1 eqn:Hw1; clear Hw1
  end.
  destruct (append_exact env onb_id
    "⚠️ 2FA requerido (use o código do app autenticador/SMS)" w1 _ H1
    (dict_truthy_set_flow _ _)) as (w2 & ts & E2 & [(_ & R2 & _) _] & H2).
  rewrite (bind_eq _ _ _ _ E2) in E.
  rewrite (bind_eq _ _ _ _ (load_logs_at _ _ _ H2 (dict_truthy_set_logs _ _))) in E.
  finish E.
  exists wf, ts. split_and!; [done|done|congruence].
Qed.

(** The [except ChallengeRequired] clause on a stored session. *)
Lemma start_except_challenge env onb_id username e w d :
  files w !! onb_id = Some (Json d) -> dict_truthy d = true ->
  is_TwoFactorRequired e = false -> is_ChallengeRequired e = true ->
  exists w' ts1 ts2,
    let d' := set_logs (set_flow (set_status d NEED_CODE) CHALLENGE)
                (get_logs d ++
                 [log_entry ts1 "⚠️ Challenge requerido — Instagram enviará um código (email/SMS)";
                  log_entry ts2 "Dica: verifique também a pasta de SPAM / promoções do e-mail."]) in
    start_except env onb_id username e w
      = (w', Ok (VerifyCode onb_id (_console (get_logs d'))))
    /\ files w' !! onb_id = Some (Json d')
    /\ registrations w' = registrations w.
Proof.
  intros Hd Ht Hc2 Hc.
  destruct (start_except env onb_id username e w) as [wf r] eqn:E.
  unfold start_except in E. rewrite Hc2, Hc in E.
  rewrite (bind_eq _ _ _ _ (load_json _ _ _ Hd)) in E.
  unfold or_empty in E. rewrite Ht in E.
  step_save E.
  match type of E with
  | (_ ≫= _) ?wx = _ =>
      assert (files wx !! onb_id
              = Some (Json (set_flow (set_status d NEED_CODE) CHALLENGE))) as H1
        by exact (lookup_insert_placed _ _ w (placed_stored _ _ _ Hd));
      assert (registrations wx = registrations w) as R1 by reflexivity;
      remember wx as w1 eqn:Hw1; clear Hw1
  end.
  destruct (append_exact env onb_id
    "⚠️ Challenge requerido — Instagram enviará um código (email/SMS)" w1 _ H1
    (dict_truthy_set_flow _ _)) as (w2 & ts1 & E2 & [(_ & R2 & _) _] & H2).
  rewrite (bind_eq _ _ _ _ E2) in E.
  destruct (append_exact env onb_id
    "Dica: verifique também a pasta de SPAM / promoções do e-mail." w2 _ H2
    (dict_truthy_set_logs _ _)) as (w3 & ts2 & E3 & [(_ & R3 & _) _] & H3).
  rewrite (bind_eq _ _ _ _ E3) in E.
  rewrite (bind_eq _ _ _ _ (load_logs_at _ _ _ H3 (dict_truthy_set_logs _ _))) in E.
  finish E.
  exists wf, ts1, ts2. cbv zeta. rewrite H3. unfold set_logs, get_logs. simpl.
  rewrite <- !app_assoc. simpl. split_and!; [done|done|congruence].
Qed.

(** Start up to its [try] statement: the new session is stored, grown by
    the first log entries, and nothing was registered. *)
Lemma start_reaches_try env username password proxy w :
  exists d w4,
    ui_start_add_account env username password proxy w
      = try_except (start_try env (uuid4 env) username password proxy)
                   (fun e => Some (start_except env (uuid4 env) username e)) w4
    /\ files w4 !! uuid4 env = Some (Json d)
    /\ dict_truthy d = true
    /\ d_username d = Some (strip username)
    /\ d_password d = Some password
    /\ d_status d = Some INIT /\ d_flow d = Some None
    /\ registrations w4 = registrations w.
Proof.
  destruct (new_onb_at env username password proxy w)
    as (d0 & w1 & E1 & Hd0 & Ht0 & Hu & Hp & Hx & Hs & Hf & Hl & Hr & Hc & Hfr & _).
  destruct (ui_start_add_account env username password proxy w) as [wf r] eqn:E.
  unfold ui_start_add_account in E.
  rewrite (bind_eq _ _ _ _ E1) in E.
  step E (append_quiet env (uuid4 env) ("Iniciando login para @" +:+ username)).
  lazymatch type of E with
  | (?c ≫= _) _ = _ =>
      assert (forall w, placed (uuid4 env) w ->
                exists w', c w = (w', Ok tt) /\ quiet w w') as Hn
        by (intros v Hv; destruct proxy as [p|];
            [destruct (str_truthy (Some p))|];
            first [by apply append_quiet | by exists v])
  end.
  step E Hn.
  step E (configure_proxy_spec env (uuid4 env) proxy
            "Proxy configurado com sucesso" "[WARN] Proxy inválido: ").
  destruct F as [L0 _], F0 as [L2 _], F1 as [L3 _].
  assert (log_only w1 w3) as L by (etrans; [exact L0|]; by etrans).
  destruct (log_only_session _ _ _ _ L Hd0 Ht0) as (d & Hd & Ht & G).
  destruct G as (_ & Gu & Gp & _ & Gs & Gf & _).
  exists d, w3. rewrite E.
  split_and!; try congruence.
  rewrite (log_only_registrations _ _ L). done.
Qed.

(** C1.  When the login under the pre-login handler raises
    [TwoFactorRequired], start stores the session with status NEED_CODE
    and flow TWO_FACTOR, logs the event last, and answers the 2FA page,
    which stands for NEEDS_TWO_FACTOR with the session id.  When it raises
    [ChallengeRequired] -- the one the pre-login handler raises included,
    which is what [aborts] answers -- start stores status NEED_CODE and
    flow CHALLENGE, logs the event and then the hint about the spam
    folder, and answers the code page, which stands for NEEDS_CHALLENGE
    with the session id.  The exception is a [ChallengeRequired] whenever
    the login called the handler and let the handler's exception
    through. *)
Theorem start_suspends_for_code env username password proxy w e :
  settle (login (cl env) username password) aborts = Raise e ->
  let r := ui_start_add_account env username password proxy w in
  let onb_id := uuid4 env in
  (is_TwoFactorRequired e = true ->
     exists d prior ts,
       r.2 = Ok (Confirm2FA username onb_id (_console (get_logs d)))
       /\ outcome_of (Confirm2FA username onb_id (_console (get_logs d)))
          = NEEDS_TWO_FACTOR onb_id
       /\ files r.1 !! onb_id = Some (Json d)
       /\ d_status d = Some NEED_CODE /\ d_flow d = Some (Some TWO_FACTOR)
       /\ d_username d = Some (strip username) /\ d_password d = Some password
       /\ get_logs d = prior ++
            [log_entry ts "⚠️ 2FA requerido (use o código do app autenticador/SMS)"])
  /\ (is_ChallengeRequired e = true ->
     exists d prior ts1 ts2,
       r.2 = Ok (VerifyCode onb_id (_console (get_logs d)))
       /\ outcome_of (VerifyCode onb_id (_console (get_logs d)))
          = NEEDS_CHALLENGE onb_id
       /\ files r.1 !! onb_id = Some (Json d)
       /\ d_status d = Some NEED_CODE /\ d_flow d = Some (Some CHALLENGE)
       /\ d_username d = Some (strip username) /\ d_password d = Some password
       /\ get_logs d = prior ++
            [log_entry ts1 "⚠️ Challenge requerido — Instagram enviará um código (email/SMS)";
             log_entry ts2 "Dica: verifique também a pasta de SPAM / promoções do e-mail."])
  /\ (forall chosen k,
        login (cl env) username password = Solicits chosen k ->
        k (aborts chosen) = Raises (Exn ChallengeRequired "awaiting_code_from_ui") ->
        is_ChallengeRequired e = true).
Proof.
  intros He r onb_id. subst r onb_id.
  assert (forall chosen k,
    login (cl env) username password = Solicits chosen k ->
    k (aborts chosen) = Raises (Exn ChallengeRequired "awaiting_code_from_ui") ->
    is_ChallengeRequired e = true) as Hthrough.
  { intros chosen k Hk Hp. rewrite Hk in He. simpl in He. rewrite Hp in He.
    simpl in He. by simplify_eq. }
  destruct (start_reaches_try env username password proxy w)
    as (d & w4 & -> & Hd & Ht & Hu & Hp & Hs & Hf & Hr).
  pose proof (start_try_spec env (uuid4 env) username password proxy w4
                (placed_uuid4 env w4)) as T.
  rewrite He in T. destruct T as (wb & Eb & Lb).
  rewrite (try_eq _ _ _ _ Eb).
  destruct (log_only_session _ _ _ _ Lb Hd Ht) as (db & Hdb & Htb & G).
  destruct G as (_ & Gu & Gp & _ & Gs & Gf & _).
  split; [|split; [|exact Hthrough]].
  - intros Hc.
    destruct (start_except_two_factor env (uuid4 env) username e wb db Hdb Htb Hc)
      as (w' & ts & E' & H' & R').
    cbv zeta in E', H'. rewrite E'. simpl.
    eexists _, (get_logs db), ts. split_and!; try done; simpl; congruence.
  - intros Hc.
    assert (is_TwoFactorRequired e = false) as Hc2.
    { unfold is_ChallengeRequired, is_TwoFactorRequired in *.
      by destruct (exn_cls e). }
    destruct (start_except_challenge env (uuid4 env) username e wb db Hdb Htb Hc2 Hc)
      as (w' & ts1 & ts2 & E' & H' & R').
    cbv zeta in E', H'. rewrite E'. simpl.
    eexists _, (get_logs db), ts1, ts2. split_and!; try done; simpl; congruence.
Qed.

(** C2.  When the login under the pre-login handler returns a true value,
    start answers the account-added page, which stands for SUCCESS; the
    pool has received one more call, with the username, password and proxy
    as given; and no file is left under the session id. *)
Theorem start_success env username password proxy w :
  settle (login (cl env) username password) aborts = Ok true ->
  let r := ui_start_add_account env username password proxy w in
  r.2 = Ok (AccountAdded username)
  /\ outcome_of (AccountAdded username) = SUCCESS
  /\ registrations r.1 = registrations w ++ [(username, password, proxy)]
  /\ files r.1 !! uuid4 env = None.
Proof.
  intros He r. subst r.
  destruct (start_reaches_try env username password proxy w)
    as (d & w4 & -> & Hd & Ht & Hu & Hp & Hs & Hf & Hr).
  pose proof (start_try_spec env (uuid4 env) username password proxy w4
                (placed_uuid4 env w4)) as T.
  rewrite He in T. destruct T as (wb & Eb & Rb & Fb).
  rewrite (try_eq _ _ _ _ Eb). simpl.
  split_and!; [done|done|congruence|done].
Qed.

(** ** Confirm (C3, C5, C9) *)

Ltac reduce E := cbv beta iota delta [negb] in E.

(** A handler clause that logs a warning and gives [False]. *)
Lemma warn_false env onb_id msg w :
  placed onb_id w ->
  exists w', (_append_log env onb_id msg ;; mret false) w = (w', Ok false) /\ quiet w w'.
Proof.
  intros Hp. destruct (append_quiet env onb_id msg w Hp) as (w' & E & Q).
  exists w'. by rewrite (bind_eq _ _ _ _ E).
Qed.

(** [try: ok = bool(body) / except ...: ok = False] when every clause
    only logs. *)
Lemma try_catch_false (body : M bool) h w wb rb :
  body w = (wb, rb) ->
  (forall e, exists k v', h e = Some k /\ k wb = (v', Ok false) /\ quiet wb v') ->
  exists w',
    try_except body h w
      = (w', Ok (match rb with Ok ok => ok | Raise _ => false end))
    /\ quiet wb w'.
Proof.
  intros Eb Hh. rewrite (try_eq _ _ _ _ Eb). destruct rb as [ok|e].
  - exists wb. split; [done | reflexivity].
  - destruct (Hh e) as (k & w' & -> & Ek & Q). by exists w'.
Qed.

(** The explicit challenge resolution: positional first, named on
    [TypeError]. *)
Lemma resolve_spec env onboarding_id code w :
  placed onboarding_id w ->
  exists w',
    try_except
      (method (ChallengeResolve code) (challenge_resolve (cl env) code)
              (_handler env onboarding_id code))
      (fun e =>
         if is_TypeError e then Some (
           method (ChallengeResolveKw code) (challenge_resolve_kw (cl env) code)
                  (_handler env onboarding_id code))
         else None) w
      = (w', fallback env code)
    /\ log_only w w'
    /\ provider_calls w' = provider_calls w ++ fallback_calls env code.
Proof.
  intros Hp.
  destruct (method_spec (ChallengeResolve code) (challenge_resolve (cl env) code)
              _ _ _ w (handler_tame env onboarding_id code) Hp)
    as (w1 & E1 & L1 & P1).
  rewrite (try_eq _ _ _ _ E1). unfold fallback, fallback_calls.
  destruct (settle (challenge_resolve (cl env) code) (supplies code)) as [ok|e].
  - by exists w1.
  - destruct (is_TypeError e); [|by exists w1].
    destruct (method_spec (ChallengeResolveKw code)
                (challenge_resolve_kw (cl env) code)
                _ _ _ w1 (handler_tame env onboarding_id code) ltac:(placed_go))
      as (w2 & E2 & L2 & P2).
    exists w2. split_and!; [done | by etrans |].
    rewrite P2, P1. by rewrite <- app_assoc.
Qed.

(** The [CHALLENGE] branch, by what the provider does under [_handler]. *)
Lemma confirm_challenge_spec env onboarding_id username password code w :
  placed onboarding_id w ->
  exists w',
    confirm_challenge env onboarding_id username password code w
      = (w', if login_succeeds env username password code
                || fallback_succeeds env code
             then Ok tt
             else Raise (Exn LoginRequired "Challenge não aceito"))
    /\ log_only w w'
    /\ provider_calls w'
       = provider_calls w ++ Login username password ::
           (if login_succeeds env username password code then []
            else fallback_calls env code).
Proof.
  intros Hp.
  destruct (confirm_challenge env onboarding_id username password code w)
    as [wf r] eqn:E.
  unfold confirm_challenge in E.
  destruct (method_spec (Login username password) (login (cl env) username password)
              _ _ _ w (handler_tame env onboarding_id code) Hp)
    as (w1 & E1 & L1 & P1).
  lazymatch type of E with
  | (try_except ?b ?h ≫= _) _ = _ =>
      destruct (try_catch_false b h w _ _ E1) as (w2 & E2 & [L2 P2])
  end.
  { intros e. destruct (is_ChallengeRequired e).
    - eexists _, w1. split_and!; [done|done|reflexivity].
    - destruct (warn_false env onboarding_id
                  ("[WARN] login com handler falhou: " +:+ exn_str e) w1
                  ltac:(placed_go))
        as (v' & Ev & Qv).
      by eexists _, v'. }
  rewrite (bind_eq _ _ _ _ E2) in E. reduce E.
  fold (login_succeeds env username password code) in E.
  destruct (login_succeeds env username password code) eqn:Hl; reduce E.
  - unfold mret at 1, M_ret at 1 in E.
    rewrite (bind_eq _ _ _ _ eq_refl) in E. reduce E.
    destruct (append_quiet env onboarding_id "Challenge validado com sucesso" w2
                ltac:(placed_go))
      as (w3 & E3 & [L3 P3]).
    rewrite E3 in E. simplify_eq. exists wf. simpl.
    split_and!; [done | etrans; [exact L1|]; by etrans | congruence].
  - destruct (resolve_spec env onboarding_id code w2 ltac:(placed_go))
      as (w3 & E3 & L3 & P3).
    lazymatch type of E with
    | (try_except ?b ?h ≫= _) _ = _ =>
        destruct (try_catch_false b h w2 _ _ E3) as (w4 & E4 & [L4 P4])
    end.
    { intros e.
      destruct (warn_false env onboarding_id
                  ("[WARN] challenge_resolve falhou: " +:+ exn_str e) w3
                  ltac:(placed_go))
        as (v' & Ev & Qv).
      by eexists _, v'. }
    rewrite (bind_eq _ _ _ _ E4) in E. reduce E.
    fold (fallback_succeeds env code) in E.
    assert (log_only w w4) as L
      by (etrans; [exact L1|]; etrans; [exact L2|]; by etrans).
    assert (provider_calls w4
            = provider_calls w ++ Login username password :: fallback_calls env code)
      as P by (rewrite P4, P3, P2, P1; by rewrite <- app_assoc).
    simpl. destruct (fallback_succeeds env code); reduce E.
    + destruct (append_quiet env onboarding_id "Challenge validado com sucesso" w4
                  ltac:(placed_go))
        as (w5 & E5 & [L5 P5]).
      rewrite E5 in E. simplify_eq. exists wf.
      split_and!; [done | by etrans | congruence].
    + finish E. by exists wf.
Qed.

(** The [TWO_FACTOR] branch: it only logs, and returns exactly when the
    second factor is accepted. *)
Lemma confirm_two_factor_spec env onboarding_id username password code w :
  placed onboarding_id w ->
  exists w' r,
    confirm_two_factor env onboarding_id username password code w = (w', r)
    /\ log_only w w'
    /\ match r with
       | Ok _ => two_factor_accepted env username password code = true
       | Raise _ => two_factor_accepted env username password code = false
       end.
Proof.
  intros Hp.
  destruct (confirm_two_factor env onboarding_id username password code w)
    as [wf r] eqn:E.
  unfold confirm_two_factor in E. unfold two_factor_accepted.
  destruct (method_spec (Login username password) (login (cl env) username password)
              _ _ _ w (lift_handler_tame onboarding_id (manual_input_code (cl env)))
              Hp)
    as (w1 & E1 & L1 & P1).
  destruct (method_spec (TwoFactorLogin code) (two_factor_login (cl env) code)
              _ _ _ w1 (lift_handler_tame onboarding_id (manual_input_code (cl env)))
              ltac:(placed_go))
    as (w2 & E2 & L2 & P2).
  assert (forall k : M unit,
    (try_except
       (method (Login username password) (login (cl env) username password)
               (lift_handler (manual_input_code (cl env))) ;; mret tt)
       (fun e => if is_TwoFactorRequired e then Some (mret tt) else None) ≫= fun _ => k) w
    = match settle (login (cl env) username password) (manual_input_code (cl env)) with
      | Ok _ => k w1
      | Raise e => if is_TwoFactorRequired e then k w1 else (w1, Raise e)
      end) as Hfirst.
  { intros k. erewrite bind_eq; [|erewrite try_eq; [|erewrite bind_eq; [|exact E1]]; reflexivity].
    destruct (settle (login (cl env) username password) _) as [ok|e]; [done|].
    by destruct (is_TwoFactorRequired e). }
  rewrite Hfirst in E. clear Hfirst.
  lazymatch type of E with
  | context [(try_except ?b ?h ≫= ?k) w1] =>
      destruct (try_catch_false b h w1 _ _ E2) as (w3 & E3 & [L3 P3]);
        [|rewrite (bind_eq _ k _ _ E3) in E]
  end.
  { intros e.
    destruct (warn_false env onboarding_id
                ("[WARN] two_factor_login falhou: " +:+ exn_str e) w2
                ltac:(placed_go))
      as (v' & Ev & Qv).
    by eexists _, v'. }
  cbv beta iota in E.
  assert (log_only w w3) as L by (etrans; [exact L1|]; by etrans).
  set (resolved := match settle (two_factor_login (cl env) code)
                           (manual_input_code (cl env)) with
                   | Ok ok => ok
                   | Raise _ => false
                   end) in *.
  assert (match (if negb resolved
                 then raise (Exn LoginRequired "2FA não aceito")
                 else _append_log env onboarding_id "2FA validado com sucesso") w3
          with
          | (v, Ok _) => log_only w v /\ resolved = true
          | (v, Raise _) => log_only w v /\ resolved = false
          end) as Hlast.
  { destruct resolved; simpl.
    - destruct (append_quiet env onboarding_id "2FA validado com sucesso" w3
                  ltac:(placed_go))
        as (w4 & -> & [L4 _]). split; [by etrans | done].
    - done. }
  destruct (settle (login (cl env) username password) _) as [ok|e].
  - rewrite E in Hlast. exists wf, r. split; [done|].
    destruct r; by destruct Hlast.
  - destruct (is_TwoFactorRequired e).
    + rewrite E in Hlast. exists wf, r. split; [done|].
      destruct r; by destruct Hlast.
    + simplify_eq. exists wf, (Raise e). done.
Qed.

(** Either branch: it only logs, and returns exactly when the code is
    accepted. *)
Lemma confirm_branch_spec env onboarding_id username password code fl w :
  placed onboarding_id w ->
  exists w' r,
    (match fl with
     | Some TWO_FACTOR =>
         confirm_two_factor env onboarding_id username password code
     | _ => confirm_challenge env onboarding_id username password code
     end) w = (w', r)
    /\ log_only w w'
    /\ match r with
       | Ok _ => code_accepted env fl username password code = true
       | Raise _ => code_accepted env fl username password code = false
       end.
Proof.
  intros Hp.
  assert (exists w' r,
    confirm_challenge env onboarding_id username password code w = (w', r)
    /\ log_only w w'
    /\ match r with
       | Ok _ => login_succeeds env username password code
                 || fallback_succeeds env code = true
       | Raise _ => login_succeeds env username password code
                    || fallback_succeeds env code = false
       end) as Hch.
  { destruct (confirm_challenge_spec env onboarding_id username password code w Hp)
      as (w' & E & L & _).
    eexists _, _. split; [exact E|]. split; [exact L|].
    by destruct (login_succeeds env username password code
                 || fallback_succeeds env code). }
  destruct fl as [[|]|]; simpl; try exact Hch.
  by apply confirm_two_factor_spec.
Qed.

(** Registering and closing the session. *)
Lemma confirm_register_spec env onboarding_id username password proxy w :
  placed onboarding_id w ->
  exists w',
    confirm_register env onboarding_id username password proxy w
      = (w', Ok (Completed username))
    /\ registrations w' = registrations w ++ [(username, password, proxy)]
    /\ files w' !! onboarding_id = None
    /\ provider_calls w' = provider_calls w.
Proof.
  intros Hp.
  destruct (confirm_register env onboarding_id username password proxy w)
    as [wf r] eqn:E.
  unfold confirm_register in E.
  rewrite (bind_eq _ _ _ _ (pool_at _ _ _ _ _)) in E.
  step E (append_quiet env onboarding_id
            (if add_account env username password proxy
             then "Conta adicionada ao pool"
             else "Conta já estava no pool ou não pôde ser registrada novamente")).
  step_delete E. finish E.
  destruct F as [(_ & R & _) P]. simpl in R, P.
  eexists. split; [reflexivity|]. simpl.
  split_and!; [done | apply lookup_delete_placed; placed_go | done].
Qed.

(** The outer [except] clause on a stored session. *)
Lemma confirm_except_spec env onboarding_id e w d :
  files w !! onboarding_id = Some (Json d) -> dict_truthy d = true ->
  exists w' ts,
    let d' := set_logs d (get_logs d ++
                [log_entry ts ("[ERRO] Falha na confirmação do código: " +:+ exn_str e)]) in
    confirm_except env onboarding_id e w
      = (w', Ok (VerifyError (exn_str e) onboarding_id (_console (get_logs d'))))
    /\ files w' !! onboarding_id = Some (Json d')
    /\ quiet w w'.
Proof.
  intros Hd Ht.
  destruct (confirm_except env onboarding_id e w) as [wf r] eqn:E.
  unfold confirm_except in E.
  destruct (append_exact env onboarding_id
    ("[ERRO] Falha na confirmação do código: " +:+ exn_str e) w d Hd Ht)
    as (w1 & ts & E1 & Q1 & H1).
  rewrite (bind_eq _ _ _ _ E1) in E.
  rewrite (bind_eq _ _ _ _ (load_logs_at _ _ _ H1 (dict_truthy_set_logs _ _))) in E.
  finish E. by exists wf, ts.
Qed.

Lemma get_logs_set_logs d l : get_logs (set_logs d l) = l.
Proof. reflexivity. Qed.

Lemma has_username_truthy d u : d_username d = Some u -> dict_truthy d = true.
Proof. destruct d as [[] [] [] [] [] [] [] []]; simpl; congruence. Qed.

(** Confirm on a stored session, up to its [try] statement: the receipt
    is logged first, then the proxy is configured. *)
Lemma confirm_reaches_try env onboarding_id code w d username password :
  files w !! onboarding_id = Some (Json d) ->
  d_username d = Some username -> d_password d = Some password ->
  let proxy := mjoin (d_proxy d) in
  let flow := default (Some CHALLENGE) (d_flow d) in
  exists d1 w3 ts extra,
    ui_confirm_code env onboarding_id code w
      = try_except
          ((match flow with
            | Some TWO_FACTOR =>
                confirm_two_factor env onboarding_id username password code
            | _ => confirm_challenge env onboarding_id username password code
            end) ;;
           confirm_register env onboarding_id username password proxy)
          (fun e => Some (confirm_except env onboarding_id e)) w3
    /\ files w3 !! onboarding_id = Some (Json d1)
    /\ dict_truthy d1 = true
    /\ grown d d1
    /\ get_logs d1 = get_logs d ++
         log_entry ts ("Recebido código para @" +:+ username
                       +:+ ". Tentando concluir " +:+ flow_str flow +:+ "…")
         :: extra
    /\ registrations w3 = registrations w
    /\ provider_calls w3 = provider_calls w ++ proxy_calls proxy.
Proof.
  intros Hd Hu Hp proxy flow.
  pose proof (has_username_truthy d username Hu) as Ht.
  destruct (ui_confirm_code env onboarding_id code w) as [wf r] eqn:E.
  unfold ui_confirm_code in E.
  rewrite (bind_eq _ _ _ _ (load_json _ _ _ Hd)) in E.
  reduce E. rewrite Ht in E. reduce E. rewrite Hu, Hp in E.
  unfold getitem in E.
  unfold mret at 1 2, M_ret at 1 2 in E.
  rewrite (bind_eq _ _ _ _ eq_refl) in E. reduce E.
  rewrite (bind_eq _ _ _ _ eq_refl) in E. reduce E.
  fold proxy flow in E.
  destruct (append_exact env onboarding_id
    ("Recebido código para @" +:+ username +:+ ". Tentando concluir "
     +:+ flow_str flow +:+ "…") w d Hd Ht) as (w1 & ts & E1 & [L1 P1] & H1).
  rewrite (bind_eq _ _ _ _ E1) in E. reduce E.
  step E (configure_proxy_spec env onboarding_id proxy
            "Proxy configurado novamente para concluir verificação"
            "[WARN] Proxy inválido ao confirmar: ").
  destruct F as [L2 P2].
  destruct (log_only_session _ _ _ _ L2 H1 (dict_truthy_set_logs _ _))
    as (d1 & Hd1 & Ht1 & G1).
  pose proof G1 as (_ & _ & _ & _ & _ & _ & _ & extra & Hx).
  exists d1, w0, ts, extra. rewrite E.
  split_and!; try done.
  - eapply grown_trans; [apply grown_set_logs | exact G1].
  - rewrite Hx, get_logs_set_logs. by rewrite <- app_assoc.
  - rewrite (log_only_registrations _ _ L2). apply L1.
  - by rewrite P2, P1.
Qed.

(** Confirm on a stored session completes exactly when the code is
    accepted, registering the account and deleting the file; otherwise it
    answers the error page and keeps the session, grown by the receipt
    first and the error last. *)
Lemma confirm_outcome env onboarding_id code w d username password :
  files w !! onboarding_id = Some (Json d) ->
  d_username d = Some username -> d_password d = Some password ->
  let r := ui_confirm_code env onboarding_id code w in
  let fl := default (Some CHALLENGE) (d_flow d) in
  (code_accepted env fl username password code = true
   /\ r.2 = Ok (Completed username)
   /\ registrations r.1
      = registrations w ++ [(username, password, mjoin (d_proxy d))]
   /\ files r.1 !! onboarding_id = None)
  \/ (code_accepted env fl username password code = false
      /\ exists message d' ts1 middle ts2,
        r.2 = Ok (VerifyError message onboarding_id (_console (get_logs d')))
        /\ files r.1 !! onboarding_id = Some (Json d')
        /\ grown d d'
        /\ get_logs d' = get_logs d ++
             [log_entry ts1 ("Recebido código para @" +:+ username
                +:+ ". Tentando concluir " +:+ flow_str fl +:+ "…")]
             ++ middle ++
             [log_entry ts2 ("[ERRO] Falha na confirmação do código: " +:+ message)]
        /\ registrations r.1 = registrations w).
Proof.
  intros Hd Hu Hp r fl. subst r.
  destruct (confirm_reaches_try env onboarding_id code w d username password Hd Hu Hp)
    as (d1 & w3 & ts & extra & -> & Hd1 & Ht1 & G1 & Hl1 & R1 & P1).
  cbv zeta. fold fl.
  destruct (confirm_branch_spec env onboarding_id username password code fl w3
              (placed_stored _ _ _ Hd1))
    as (wv & rv & Ev & Lv & Ha).
  destruct rv as [[]|e].
  - left.
    destruct (confirm_register_spec env onboarding_id username password
                (mjoin (d_proxy d)) wv ltac:(placed_go)) as (w' & E' & R' & F' & _).
    erewrite try_eq; [|erewrite bind_eq; [|exact Ev]; exact E'].
    simpl. split_and!; [done|done| |done].
    rewrite R', (log_only_registrations _ _ Lv). by rewrite R1.
  - right. split; [done|].
    destruct (log_only_session _ _ _ _ Lv Hd1 Ht1) as (dv & Hdv & Htv & Gv).
    destruct (confirm_except_spec env onboarding_id e wv dv Hdv Htv)
      as (w' & ts2 & E' & H' & [(_ & R' & _) _]).
    cbv zeta in E', H'.
    erewrite try_eq; [|erewrite bind_eq; [|exact Ev]; reflexivity].
    cbv beta iota. rewrite E'. simpl.
    pose proof Gv as (_ & _ & _ & _ & _ & _ & _ & extra2 & Hx2).
    eexists (exn_str e), _, ts, (extra ++ extra2), ts2.
    split_and!; [done|exact H'| | |by rewrite R', (log_only_registrations _ _ Lv)].
    + eapply grown_trans; [exact G1|]. eapply grown_trans; [exact Gv|].
      apply grown_set_logs.
    + rewrite get_logs_set_logs, Hx2, Hl1. rewrite <- !app_assoc.
      by rewrite <- app_comm_cons.
Qed.

(** Confirm on a stored session whose flow is not TWO_FACTOR: the calls
    made on the provider, and the outcome by whether the login under
    [_handler] or the explicit resolution yields success. *)
Lemma confirm_challenge_branch env onboarding_id code w d username password :
  files w !! onboarding_id = Some (Json d) ->
  d_username d = Some username -> d_password d = Some password ->
  default (Some CHALLENGE) (d_flow d) <> Some TWO_FACTOR ->
  let r := ui_confirm_code env onboarding_id code w in
  provider_calls r.1
    = provider_calls w ++ proxy_calls (mjoin (d_proxy d)) ++
      Login username password ::
        (if login_succeeds env username password code then []
         else fallback_calls env code)
  /\ (if login_succeeds env username password code || fallback_succeeds env code
      then
        r.2 = Ok (Completed username)
        /\ registrations r.1
           = registrations w ++ [(username, password, mjoin (d_proxy d))]
        /\ files r.1 !! onboarding_id = None
      else
        exists d',
          r.2 = Ok (VerifyError "Challenge não aceito" onboarding_id
                      (_console (get_logs d')))
          /\ files r.1 !! onboarding_id = Some (Json d')
          /\ grown d d'
          /\ registrations r.1 = registrations w).
Proof.
  intros Hd Hu Hp Hfl r. subst r.
  destruct (confirm_reaches_try env onboarding_id code w d username password Hd Hu Hp)
    as (d1 & w3 & ts & extra & -> & Hd1 & Ht1 & G1 & Hl1 & R1 & P1).
  cbv zeta.
  assert (forall k : M page,
    ((match default (Some CHALLENGE) (d_flow d) with
      | Some TWO_FACTOR =>
          confirm_two_factor env onboarding_id username password code
      | _ => confirm_challenge env onboarding_id username password code
      end) ≫= fun _ => k)
    = (confirm_challenge env onboarding_id username password code ≫= fun _ => k))
    as -> by (intros k; by destruct (default (Some CHALLENGE) (d_flow d)) as [[|]|]).
  destruct (confirm_challenge_spec env onboarding_id username password code w3
              (placed_stored _ _ _ Hd1))
    as (wv & Ev & Lv & Pv).
  destruct (login_succeeds env username password code || fallback_succeeds env code).
  - destruct (confirm_register_spec env onboarding_id username password
                (mjoin (d_proxy d)) wv ltac:(placed_go)) as (w' & E' & R' & F' & P').
    erewrite try_eq; [|erewrite bind_eq; [|exact Ev]; exact E'].
    simpl. split_and!; [|done| |done].
    + rewrite P', Pv, P1. by rewrite <- app_assoc.
    + by rewrite R', (log_only_registrations _ _ Lv), R1.
  - destruct (log_only_session _ _ _ _ Lv Hd1 Ht1) as (dv & Hdv & Htv & Gv).
    destruct (confirm_except_spec env onboarding_id
                (Exn LoginRequired "Challenge não aceito") wv dv Hdv Htv)
      as (w' & ts2 & E' & H' & [(_ & R' & _) P']).
    cbv zeta in E', H'.
    erewrite try_eq; [|erewrite bind_eq; [|exact Ev]; reflexivity].
    cbv beta iota. rewrite E'. simpl. split.
    + rewrite P', Pv, P1. by rewrite <- app_assoc.
    + eexists. split_and!; [done|exact H'| |by rewrite R', (log_only_registrations _ _ Lv)].
      eapply grown_trans; [exact G1|]. eapply grown_trans; [exact Gv|].
      apply grown_set_logs.
Qed.

(** C3, as the code has it.  Confirm on a stored session with status
    NEED_CODE, when the code is not accepted (a resolution call returns a
    false value or raises), answers the error page, which stands for
    FAILURE with the session id; the file stays, with status NEED_CODE and
    every field but the log as before; the log has grown by the receipt
    entry first and the error entry last, with the warnings and handler
    entries of the attempt between them. *)
Theorem confirm_failure_keeps_session env onboarding_id code w d username password :
  files w !! onboarding_id = Some (Json d) ->
  d_username d = Some username -> d_password d = Some password ->
  d_status d = Some NEED_CODE ->
  code_accepted env (default (Some CHALLENGE) (d_flow d)) username password code
    = false ->
  let r := ui_confirm_code env onboarding_id code w in
  exists message d' ts1 middle ts2,
    r.2 = Ok (VerifyError message onboarding_id (_console (get_logs d')))
    /\ outcome_of (VerifyError message onboarding_id (_console (get_logs d')))
       = FAILURE (Some onboarding_id) message
    /\ files r.1 !! onboarding_id = Some (Json d')
    /\ d_status d' = Some NEED_CODE
    /\ d_flow d' = d_flow d
    /\ grown d d'
    /\ get_logs d' = get_logs d ++
         [log_entry ts1 ("Recebido código para @" +:+ username
            +:+ ". Tentando concluir "
            +:+ flow_str (default (Some CHALLENGE) (d_flow d)) +:+ "…")]
         ++ middle ++
         [log_entry ts2 ("[ERRO] Falha na confirmação do código: " +:+ message)]
    /\ registrations r.1 = registrations w.
Proof.
  intros Hd Hu Hp Hs Hr r.
  destruct (confirm_outcome env onboarding_id code w d username password Hd Hu Hp)
    as [(Ha & _) | (_ & message & d' & ts1 & middle & ts2 & E & H' & G & Hl & R)];
    [congruence|].
  exists message, d', ts1, middle, ts2.
  pose proof G as (_ & _ & _ & _ & Gs & Gf & _).
  split_and!; try done. congruence.
Qed.

(** C5, as the code has it.  Confirm does not read the status.  On a
    stored session with status INIT and a null flow it takes the CHALLENGE
    branch: it calls the provider login with the stored username and
    password under the code-returning handler, then the explicit
    resolution when that does not yield success; when either yields
    success the account is registered and the file deleted. *)
Theorem confirm_resumes_init_session env onboarding_id code w d username password :
  files w !! onboarding_id = Some (Json d) ->
  d_username d = Some username -> d_password d = Some password ->
  d_status d = Some INIT -> d_flow d = Some None ->
  let r := ui_confirm_code env onboarding_id code w in
  provider_calls r.1
    = provider_calls w ++ proxy_calls (mjoin (d_proxy d)) ++
      Login username password ::
        (if login_succeeds env username password code then []
         else fallback_calls env code)
  /\ (login_succeeds env username password code || fallback_succeeds env code = true ->
      r.2 = Ok (Completed username)
      /\ registrations r.1
         = registrations w ++ [(username, password, mjoin (d_proxy d))]
      /\ files r.1 !! onboarding_id = None).
Proof.
  intros Hd Hu Hp Hs Hf r.
  destruct (confirm_challenge_branch env onboarding_id code w d username password
              Hd Hu Hp) as [P O]; [by rewrite Hf|].
  split; [exact P|]. intros Ha. fold r in O. by rewrite Ha in O.
Qed.

(** C9.  In the CHALLENGE branch, when the login under the code-returning
    handler does not yield success, the provider next sees the positional
    [challenge_resolve(code)], and after it the named
    [challenge_resolve(code=code)] exactly when the positional call raised
    [TypeError]; when the resolution does not yield success either, the
    answer is the error page with "Challenge não aceito", which stands for
    FAILURE, and the session stays with its status and flow. *)
Theorem challenge_fallback_order env onboarding_id code w d username password :
  files w !! onboarding_id = Some (Json d) ->
  d_username d = Some username -> d_password d = Some password ->
  d_flow d = Some (Some CHALLENGE) ->
  login_succeeds env username password code = false ->
  let r := ui_confirm_code env onboarding_id code w in
  provider_calls r.1
    = provider_calls w ++ proxy_calls (mjoin (d_proxy d)) ++
      Login username password :: ChallengeResolve code ::
        match settle (challenge_resolve (cl env) code) (supplies code) with
        | Ok _ => []
        | Raise e => if is_TypeError e then [ChallengeResolveKw code] else []
        end
  /\ (fallback_succeeds env code = false ->
      exists d',
        r.2 = Ok (VerifyError "Challenge não aceito" onboarding_id
                    (_console (get_logs d')))
        /\ outcome_of (VerifyError "Challenge não aceito" onboarding_id
                         (_console (get_logs d')))
           = FAILURE (Some onboarding_id) "Challenge não aceito"
        /\ files r.1 !! onboarding_id = Some (Json d')
        /\ d_status d' = d_status d
        /\ d_flow d' = Some (Some CHALLENGE)
        /\ grown d d').
Proof.
  intros Hd Hu Hp Hf Hl r.
  destruct (confirm_challenge_branch env onboarding_id code w d username password
              Hd Hu Hp) as [P O]; [by rewrite Hf|].
  fold r in P, O. rewrite Hl in P, O. split; [exact P|].
  intros Hfb. rewrite Hfb in O. simpl in O.
  destruct O as (d' & E & H' & G & R). exists d'.
  pose proof G as (_ & _ & _ & _ & Gs & Gf & _).
  split_and!; try done. congruence.
Qed.

(** ** The properties at work on sample requests *)

Lemma start_suspends_for_code_witness :
  (exists d,
     files (ui_start_add_account (Sample.env Sample.strict_two_factor)
              "bob" "pw" None initial).1 !! "5f0c" = Some (Json d)
     /\ d_status d = Some NEED_CODE /\ d_flow d = Some (Some TWO_FACTOR))
  /\ (exists d,
        files (ui_start_add_account (Sample.env Sample.challenging)
                 "bob" "pw" None initial).1 !! "5f0c" = Some (Json d)
        /\ d_status d = Some NEED_CODE /\ d_flow d = Some (Some CHALLENGE)).
Proof.
  split.
  - destruct (start_suspends_for_code (Sample.env Sample.strict_two_factor)
                "bob" "pw" None initial Sample.two_factor_required eq_refl)
      as [H _].
    destruct (H eq_refl) as (d & prior & ts & _ & _ & Hd & Hs & Hf & _).
    exists d. exact (conj Hd (conj Hs Hf)).
  - destruct (start_suspends_for_code (Sample.env Sample.challenging)
                "bob" "pw" None initial
                (Exn ChallengeRequired "awaiting_code_from_ui") eq_refl)
      as (_ & H & _).
    destruct (H eq_refl) as (d & prior & ts1 & ts2 & _ & _ & Hd & Hs & Hf & _).
    exists d. exact (conj Hd (conj Hs Hf)).
Defined.

Lemma start_success_witness :
  settle (login (cl (Sample.env Sample.welcoming)) "bob" "pw") aborts = Ok true
  /\ registrations
       (ui_start_add_account (Sample.env Sample.welcoming) "bob" "pw"
          (Some "http://proxy:8080") initial).1
     = [("bob", "pw", Some "http://proxy:8080")]
  /\ files
       (ui_start_add_account (Sample.env Sample.welcoming) "bob" "pw"
          (Some "http://proxy:8080") initial).1 !! "5f0c" = None.
Proof.
  split; [reflexivity|].
  destruct (start_success (Sample.env Sample.welcoming) "bob" "pw"
              (Some "http://proxy:8080") initial eq_refl) as (_ & _ & R & F).
  exact (conj R F).
Defined.

Lemma confirm_failure_keeps_session_witness :
  code_accepted (Sample.env Sample.strict_two_factor) (Some TWO_FACTOR)
    "bob" "pw" "000000" = false
  /\ exists message d',
    outcome_of_result
      (ui_confirm_code (Sample.env Sample.strict_two_factor) "5f0c" "000000"
         (Sample.waiting TWO_FACTOR)).2
    = Some (FAILURE (Some "5f0c") message)
    /\ files (ui_confirm_code (Sample.env Sample.strict_two_factor) "5f0c" "000000"
                (Sample.waiting TWO_FACTOR)).1 !! "5f0c" = Some (Json d')
    /\ d_status d' = Some NEED_CODE
    /\ d_flow d' = Some (Some TWO_FACTOR).
Proof.
  split; [reflexivity|].
  destruct (confirm_failure_keeps_session (Sample.env Sample.strict_two_factor)
              "5f0c" "000000" (Sample.waiting TWO_FACTOR)
              (Sample.session TWO_FACTOR) "bob" "pw"
              eq_refl eq_refl eq_refl eq_refl eq_refl)
    as (message & d' & ts1 & middle & ts2 & E & O & Hd & Hs & Hf & _).
  exists message, d'. rewrite E. simpl. exact (conj eq_refl (conj Hd (conj Hs Hf))).
Defined.

Lemma confirm_refused_path_raises_witness :
  files initial !! Sample.long_id = Some (Inaccessible name_too_long)
  /\ ui_confirm_code (Sample.env Sample.welcoming) Sample.long_id "000000" initial
     = (initial, Raise name_too_long).
Proof.
  split; [reflexivity|].
  exact (proj1 (proj2 (confirm_refused_path_raises (Sample.env Sample.welcoming)
                         Sample.long_id "000000" initial name_too_long eq_refl))).
Defined.

Lemma cancel_refused_path_raises_witness :
  files initial !! Sample.long_id = Some (Inaccessible name_too_long)
  /\ ui_cancel (Sample.env Sample.welcoming) Sample.long_id initial
     = (initial, Raise name_too_long)
  /\ ui_cancel (Sample.env Sample.welcoming) Sample.long_id
       (ui_cancel (Sample.env Sample.welcoming) Sample.long_id initial).1
     = (initial, Raise name_too_long).
Proof.
  split; [reflexivity|].
  destruct (cancel_refused_path_raises (Sample.env Sample.welcoming)
              (Sample.env Sample.welcoming) Sample.long_id initial name_too_long
              eq_refl) as (E1 & E2 & _).
  exact (conj E1 E2).
Defined.

Lemma confirm_resumes_init_session_witness :
  d_status Sample.init_session = Some INIT
  /\ (ui_confirm_code (Sample.env Sample.challenging) "5f0c" "123456"
        Sample.abandoned).2 = Ok (Completed "bob")
  /\ registrations
       (ui_confirm_code (Sample.env Sample.challenging) "5f0c" "123456"
          Sample.abandoned).1 = [("bob", "pw", None)].
Proof.
  split; [reflexivity|].
  destruct (confirm_resumes_init_session (Sample.env Sample.challenging)
              "5f0c" "123456" Sample.abandoned Sample.init_session "bob" "pw"
              eq_refl eq_refl eq_refl eq_refl eq_refl) as [_ H].
  destruct (H eq_refl) as (E & R & _). exact (conj E R).
Defined.


Lemma append_log_appends_one_entry_witness :
  exists ts d' w',
    _append_log (Sample.env Sample.welcoming) "5f0c" "A" (Sample.waiting CHALLENGE)
      = (w', Ok tt)
    /\ hms_shape ts = true
    /\ get_logs d' = ["[09:05:00] Iniciando login para @bob"; "[" +:+ ts +:+ "] A"]
    /\ files w' !! "5f0c" = Some (Json d').
Proof.
  destruct (proj1 (append_log_appends_one_entry (Sample.env Sample.welcoming)
                     "5f0c" "A" (Sample.waiting CHALLENGE))
              (Sample.session CHALLENGE) eq_refl eq_refl)
    as (ts & d' & w' & E & S & L & _ & F & _).
  exists ts, d', w'. rewrite F.
  exact (conj E (conj S (conj L
           (lookup_insert_placed "5f0c" d' (Sample.waiting CHALLENGE)
              (placed_hex "5f0c" _ eq_refl))))).
Defined.

Lemma challenge_fallback_order_witness :
  login_succeeds (Sample.env Sample.challenging) "bob" "pw" "000000" = false
  /\ provider_calls
       (ui_confirm_code (Sample.env Sample.challenging) "5f0c" "000000"
          (Sample.waiting CHALLENGE)).1
     = [Login "bob" "pw"; ChallengeResolve "000000"; ChallengeResolveKw "000000"].
Proof.
  split; [reflexivity|].
  exact (proj1 (challenge_fallback_order (Sample.env Sample.challenging)
                  "5f0c" "000000" (Sample.waiting CHALLENGE)
                  (Sample.session CHALLENGE) "bob" "pw"
                  eq_refl eq_refl eq_refl eq_refl eq_refl)).
Defined.

Lemma unreadable_session_as_missing_witness :
  files Sample.corrupted !! "5f0c" = Some Unreadable
  /\ ui_confirm_code (Sample.env Sample.welcoming) "5f0c" "000000" Sample.corrupted
     = (Sample.corrupted, Ok SessionExpired)
  /\ ui_cancel (Sample.env Sample.welcoming) "5f0c" Sample.corrupted
     = (Sample.corrupted, Ok Canceled).
Proof.
  split; [reflexivity|].
  destruct (unreadable_session_as_missing (Sample.env Sample.welcoming)
              "5f0c" "000000" "A" Sample.corrupted eq_refl)
    as (_ & [C _] & [K _] & _).
  exact (conj C K).
Defined.

(** ** Where the specification and the code part *)

(** C3 as stated fails: a rejected second factor on a session in
    NEED_CODE leaves two new log entries, the receipt and the error, not
    one. *)
Lemma rejected_code_logs_twice :
  let r := ui_confirm_code (Sample.env Sample.strict_two_factor) "5f0c" "000000"
             (Sample.waiting TWO_FACTOR) in
  d_status (Sample.session TWO_FACTOR) = Some NEED_CODE
  /\ files (Sample.waiting TWO_FACTOR) !! "5f0c" = Some (Json (Sample.session TWO_FACTOR))
  /\ settle (two_factor_login (cl (Sample.env Sample.strict_two_factor)) "000000")
            Sample.no_terminal = Ok false
  /\ code_accepted (Sample.env Sample.strict_two_factor) (Some TWO_FACTOR)
       "bob" "pw" "000000" = false
  /\ outcome_of_result r.2 = Some (FAILURE (Some "5f0c") "2FA não aceito")
  /\ exists d',
       files r.1 !! "5f0c" = Some (Json d')
       /\ get_logs d' = get_logs (Sample.session TWO_FACTOR) ++
            ["[09:05:01] Recebido código para @bob. Tentando concluir TWO_FACTOR…";
             "[09:05:02] [ERRO] Falha na confirmação do código: 2FA não aceito"]
       /\ ~ exists entry,
            get_logs d' = get_logs (Sample.session TWO_FACTOR) ++ [entry].
Proof.
  cbv zeta. split_and!; try reflexivity.
  eexists. split_and!.
  - vm_compute. reflexivity.
  - reflexivity.
  - intros [entry H]. vm_compute in H. discriminate H.
Qed.

(** C5 as stated fails: a session left in INIT by a start whose login
    returned a false value is resumed by confirm, which calls the provider
    login again and, the code being accepted, registers the account. *)
Lemma init_session_is_resumed :
  let w := (ui_start_add_account (Sample.env Sample.refusing) "bob" "pw" None
              initial).1 in
  let r := ui_confirm_code (Sample.env Sample.challenging) "5f0c" "123456" w in
  (exists d, files w !! "5f0c" = Some (Json d)
             /\ d_status d = Some INIT /\ d_flow d = Some None)
  /\ provider_calls w = [Login "bob" "pw"]
  /\ provider_calls r.1 = [Login "bob" "pw"; Login "bob" "pw"]
  /\ r.2 = Ok (Completed "bob")
  /\ registrations r.1 = [("bob", "pw", None)]
  /\ files r.1 !! "5f0c" = None.
Proof.
  cbv zeta. split_and!.
  - eexists. split_and!; [vm_compute; reflexivity | reflexivity..].
  - vm_compute. reflexivity.
  - vm_compute. reflexivity.
  - vm_compute. reflexivity.
  - vm_compute. reflexivity.
  - vm_compute. reflexivity.
Qed.

(** * Further properties *)

(** ** What a request leaves alone *)

Lemma save_keeps_calls onb_id d : steps (keeps provider_calls) (_save_onb onb_id d).
Proof. intros w. unfold keeps, _save_onb. by destruct (_onb_path onb_id w). Qed.

Lemma delete_keeps_calls onb_id : steps (keeps provider_calls) (_delete_onb onb_id).
Proof.
  intros w. unfold keeps, _delete_onb. by destruct (_onb_path onb_id w) as [k|x [e|] z].
Qed.

Lemma pool_keeps_calls env username password proxy :
  steps (keeps provider_calls) (pool_add_account env username password proxy).
Proof. by intros w. Qed.

Lemma save_keeps_registrations onb_id d :
  steps (keeps registrations) (_save_onb onb_id d).
Proof. intros w. unfold keeps, _save_onb. by destruct (_onb_path onb_id w). Qed.

Lemma delete_keeps_registrations onb_id :
  steps (keeps registrations) (_delete_onb onb_id).
Proof.
  intros w. unfold keeps, _delete_onb. by destruct (_onb_path onb_id w) as [k|x [e|] z].
Qed.

Lemma append_log_keeps_registrations env onb_id msg :
  steps (keeps registrations) (_append_log env onb_id msg).
Proof. intros w. apply (append_log_only env onb_id msg w). Qed.

#[export] Hint Resolve save_keeps_calls delete_keeps_calls pool_keeps_calls
  save_keeps_registrations delete_keeps_registrations
  append_log_keeps_registrations : steps.

Lemma method_keeps_registrations c b handler :
  (forall chosen, steps (keeps registrations) (handler chosen)) ->
  steps (keeps registrations) (method c b handler).
Proof.
  intros Hh w. unfold method.
  exact (steps_run (keeps registrations) b handler Hh _).
Qed.

(** *** Paths *)

Lemma save_keeps_paths onb_id d : steps (keeps paths) (_save_onb onb_id d).
Proof.
  intros w. unfold keeps, paths, _save_onb.
  destruct (_onb_path onb_id w); [apply locate_insert | done].
Qed.

Lemma delete_keeps_paths onb_id : steps (keeps paths) (_delete_onb onb_id).
Proof.
  intros w. unfold keeps, paths, _delete_onb.
  destruct (_onb_path onb_id w) as [k|x [e|] z]; [|done|]; apply locate_delete.
Qed.

Lemma pool_keeps_paths env username password proxy :
  steps (keeps paths) (pool_add_account env username password proxy).
Proof. by intros w. Qed.

Lemma append_log_keeps_paths env onb_id msg :
  steps (keeps paths) (_append_log env onb_id msg).
Proof. intros w. apply (append_log_only env onb_id msg w). Qed.

Lemma method_keeps_paths c b handler :
  (forall chosen, steps (keeps paths) (handler chosen)) ->
  steps (keeps paths) (method c b handler).
Proof.
  intros Hh w. unfold method.
  exact (steps_run (keeps paths) b handler Hh _).
Qed.

#[export] Hint Resolve save_keeps_paths delete_keeps_paths pool_keeps_paths
  append_log_keeps_paths : steps.

Lemma start_keeps_paths env username password proxy :
  steps (keeps paths) (ui_start_add_account env username password proxy).
Proof.
  unfold ui_start_add_account, _new_onb, configure_proxy, start_try, start_except,
    _prelogin_handler.
  steps_go; apply method_keeps_paths; steps_go.
Qed.

Lemma confirm_keeps_paths env onboarding_id code :
  steps (keeps paths) (ui_confirm_code env onboarding_id code).
Proof.
  unfold ui_confirm_code, configure_proxy, confirm_two_factor, confirm_challenge,
    confirm_register, confirm_except.
  steps_go; apply method_keeps_paths; unfold _handler; steps_go.
Qed.

Lemma cancel_keeps_paths env onboarding_id :
  steps (keeps paths) (ui_cancel env onboarding_id).
Proof. unfold ui_cancel. steps_go. Qed.

Lemma handle_keeps_paths env r : steps (keeps paths) (handle env r).
Proof.
  destruct r; simpl;
    [apply start_keeps_paths | apply confirm_keeps_paths | apply cancel_keeps_paths].
Qed.

(** *** The files of other entries *)

#[export] Instance apart_preorder i j : PreOrder (apart i j).
Proof.
  split.
  - by intros w _.
  - intros w1 w2 w3 H1 H2 Hs. destruct (H1 Hs) as [F1 P1].
    destruct H2 as [F2 P2]; [by rewrite (same_file_locate _ _ _ _ P1)|].
    split; congruence.
Qed.

Lemma save_apart i j d : steps (apart i j) (_save_onb i d).
Proof.
  intros w Hs. unfold _save_onb.
  destruct (_onb_path i w); [|done]. simpl.
  split; [by rewrite dir_lookup_insert, Hs | apply locate_insert].
Qed.

Lemma delete_apart i j : steps (apart i j) (_delete_onb i).
Proof.
  intros w Hs. unfold _delete_onb.
  destruct (_onb_path i w) as [k|x [e|] z]; [|done|]; simpl;
    (split; [by rewrite dir_lookup_delete, Hs | apply locate_delete]).
Qed.

Lemma pool_apart i j env username password proxy :
  steps (apart i j) (pool_add_account env username password proxy).
Proof. by intros w Hs. Qed.

Lemma append_log_apart i j env msg : steps (apart i j) (_append_log env i msg).
Proof.
  intros w Hs.
  destruct (append_log_cases env i msg w)
    as [(d & E & Ht & ->) | [-> | (e & _ & ->)]]; try done.
  simpl. split; [by rewrite dir_lookup_insert, Hs | apply locate_insert].
Qed.

Lemma method_apart i j c b handler :
  (forall chosen, steps (apart i j) (handler chosen)) ->
  steps (apart i j) (method c b handler).
Proof.
  intros Hh w Hs. unfold method.
  exact (steps_run (apart i j) b handler Hh
           (World (files w) (saved w) (provider_calls w ++ [c]) (registrations w)
                  (clock_reads w)) Hs).
Qed.

#[export] Hint Resolve save_apart delete_apart pool_apart append_log_apart : steps.

Lemma start_apart j env username password proxy :
  steps (apart (uuid4 env) j) (ui_start_add_account env username password proxy).
Proof.
  intros w.
  destruct (new_onb_at env username password proxy w)
    as (d0 & w1 & E1 & _ & _ & _ & _ & _ & _ & _ & _ & _ & _ & Hfr & Hloc).
  unfold ui_start_add_account. rewrite (bind_eq _ _ _ _ E1).
  lazymatch goal with
  | |- apart _ _ _ (?rest w1).1 =>
      assert (steps (apart (uuid4 env) j) rest) as H
        by (unfold configure_proxy, start_try, start_except, _prelogin_handler;
            steps_go; apply method_apart; steps_go);
      specialize (H w1)
  end.
  etrans; [|exact H]. intros Hs. split; [by apply Hfr | exact Hloc].
Qed.

Lemma confirm_apart j env onboarding_id code :
  steps (apart onboarding_id j) (ui_confirm_code env onboarding_id code).
Proof.
  unfold ui_confirm_code, configure_proxy, confirm_two_factor, confirm_challenge,
    confirm_register, confirm_except.
  steps_go; apply method_apart; unfold _handler; steps_go.
Qed.

Lemma cancel_apart j env onboarding_id :
  steps (apart onboarding_id j) (ui_cancel env onboarding_id).
Proof. unfold ui_cancel. steps_go. Qed.

Lemma handle_apart j env r : steps (apart (target env r) j) (handle env r).
Proof.
  destruct r; simpl; [apply start_apart | apply confirm_apart | apply cancel_apart].
Qed.

(** X1.  A request touches no file but the one the session id it
    addresses leads to: whatever start, confirm or cancel does, an id
    whose path leads to another entry, or to none, afterwards finds what
    it found before.  (Ids of one entry, as [./5f0c] and [5f0c], share
    their file.) *)
Theorem other_sessions_untouched env r w j :
  same_file (files w) (target env r) j = false ->
  files (handle env r w).1 !! j = files w !! j.
Proof. intros Hs. by apply (handle_apart j env r w). Qed.

(** X2.  Cancel calls neither the provider nor the pool, whatever is
    stored under the id. *)
Theorem cancel_is_local env onboarding_id w :
  provider_calls (ui_cancel env onboarding_id w).1 = provider_calls w
  /\ registrations (ui_cancel env onboarding_id w).1 = registrations w.
Proof.
  split.
  - assert (steps (keeps provider_calls) (ui_cancel env onboarding_id)) as H
      by (unfold ui_cancel; steps_go).
    apply H.
  - assert (steps (keeps registrations) (ui_cancel env onboarding_id)) as H
      by (unfold ui_cancel; steps_go).
    apply H.
Qed.

(** ** Start: every way it ends *)

(** Start up to its [try] statement, with what is stored of the proxy
    and the calls made so far. *)
Lemma start_reaches_try_full env username password proxy w :
  exists d w4,
    ui_start_add_account env username password proxy w
      = try_except (start_try env (uuid4 env) username password proxy)
                   (fun e => Some (start_except env (uuid4 env) username e)) w4
    /\ files w4 !! uuid4 env = Some (Json d)
    /\ dict_truthy d = true
    /\ d_username d = Some (strip username)
    /\ d_password d = Some password
    /\ d_proxy d = Some (stored_proxy proxy)
    /\ d_status d = Some INIT /\ d_flow d = Some None
    /\ registrations w4 = registrations w
    /\ provider_calls w4 = provider_calls w ++ proxy_calls proxy.
Proof.
  destruct (new_onb_at env username password proxy w)
    as (d0 & w1 & E1 & Hd0 & Ht0 & Hu & Hp & Hx & Hs & Hf & Hl & Hr & Hc & Hfr & _).
  destruct (ui_start_add_account env username password proxy w) as [wf r] eqn:E.
  unfold ui_start_add_account in E.
  rewrite (bind_eq _ _ _ _ E1) in E.
  step E (append_quiet env (uuid4 env) ("Iniciando login para @" +:+ username)).
  lazymatch type of E with
  | (?c ≫= _) _ = _ =>
      assert (forall w, placed (uuid4 env) w ->
                exists w', c w = (w', Ok tt) /\ quiet w w') as Hn
        by (intros v Hv; destruct proxy as [p|];
            [destruct (str_truthy (Some p))|];
            first [by apply append_quiet | by exists v])
  end.
  step E Hn.
  step E (configure_proxy_spec env (uuid4 env) proxy
            "Proxy configurado com sucesso" "[WARN] Proxy inválido: ").
  destruct F as [L0 P0], F0 as [L2 P2], F1 as [L3 P3].
  assert (log_only w1 w3) as L by (etrans; [exact L0|]; by etrans).
  destruct (log_only_session _ _ _ _ L Hd0 Ht0) as (d & Hd & Ht & G).
  destruct G as (_ & Gu & Gp & Gx & Gs & Gf & _).
  exists d, w3. rewrite E. unfold stored_proxy.
  pose proof (log_only_registrations _ _ L) as Lr.
  split_and!; congruence.
Qed.

(** The last [except] clause on a stored session. *)
Lemma start_except_other env onb_id username e w d :
  files w !! onb_id = Some (Json d) -> dict_truthy d = true ->
  is_TwoFactorRequired e = false -> is_ChallengeRequired e = false ->
  exists w' ts,
    let d' := set_logs d (get_logs d ++
                [log_entry ts ("[ERRO] Falha ao iniciar o login: " +:+ exn_str e)]) in
    start_except env onb_id username e w
      = (w', Ok (StartError (exn_str e) (_console (get_logs d'))))
    /\ files w' !! onb_id = Some (Json d')
    /\ quiet w w'.
Proof.
  intros Hd Ht Hc2 Hc.
  destruct (start_except env onb_id username e w) as [wf r] eqn:E.
  unfold start_except in E. rewrite Hc2, Hc in E.
  destruct (append_exact env onb_id
    ("[ERRO] Falha ao iniciar o login: " +:+ exn_str e) w d Hd Ht)
    as (w1 & ts & E1 & Q1 & H1).
  rewrite (bind_eq _ _ _ _ E1) in E.
  rewrite (bind_eq _ _ _ _ (load_logs_at _ _ _ H1 (dict_truthy_set_logs _ _))) in E.
  finish E. by exists wf, ts.
Qed.

Lemma start_except_keeps_calls env onb_id username e :
  steps (keeps provider_calls) (start_except env onb_id username e).
Proof. unfold start_except. steps_go. Qed.

Lemma start_try_calls env onb_id username password proxy w :
  placed onb_id w ->
  provider_calls (start_try env onb_id username password proxy w).1
  = provider_calls w ++ [Login username password].
Proof.
  intros Hp0.
  destruct (start_try env onb_id username password proxy w) as [wf r] eqn:E.
  unfold start_try in E.
  step E (append_quiet env onb_id "Tentando login direto…").
  step E (fun w => method_spec (Login username password)
            (login (cl env) username password) _ _ onb_id w
            (prelogin_handler_tame env onb_id)).
  destruct F as [_ P]. destruct F0 as [_ P0].
  destruct (settle _ _) as [[|]|e].
  - step E (append_quiet env onb_id "Login concluído com sucesso").
    rewrite (bind_eq _ _ _ _ (pool_at _ _ _ _ _)) in E.
    step E (append_quiet env onb_id
              (if add_account env username password proxy
               then "Conta adicionada ao pool"
               else "Conta já no pool ou não pôde ser adicionada novamente")).
    step_delete E. finish E.
    destruct F as [_ P1]. destruct F0 as [_ P2]. simpl in *. congruence.
  - finish E. simpl. congruence.
  - finish E. simpl. congruence.
Qed.

(** The page start answers with and the calls on the pool, by what the
    login does under the pre-login handler. *)
Lemma start_classified env username password proxy w :
  let r := ui_start_add_account env username password proxy w in
  exists p,
    r.2 = Ok p
    /\ outcome_of p = start_outcome env username password
    /\ registrations r.1 = registrations w ++
         match settle (login (cl env) username password) aborts with
         | Ok true => [(username, password, proxy)]
         | _ => []
         end.
Proof.
  intros r. subst r.
  destruct (start_reaches_try env username password proxy w)
    as (d & w4 & -> & Hd & Ht & Hu & Hp & Hs & Hf & Hr).
  pose proof (start_try_spec env (uuid4 env) username password proxy w4
                (placed_uuid4 env w4)) as T.
  unfold start_outcome.
  assert (forall e wb,
    start_try env (uuid4 env) username password proxy w4 = (wb, Raise e) ->
    log_only w4 wb ->
    exists p,
      (try_except (start_try env (uuid4 env) username password proxy)
         (fun e => Some (start_except env (uuid4 env) username e)) w4).2 = Ok p
      /\ outcome_of p =
           (if is_TwoFactorRequired e then NEEDS_TWO_FACTOR (uuid4 env)
            else if is_ChallengeRequired e then NEEDS_CHALLENGE (uuid4 env)
            else FAILURE None (exn_str e))
      /\ registrations
           (try_except (start_try env (uuid4 env) username password proxy)
              (fun e => Some (start_except env (uuid4 env) username e)) w4).1
         = registrations w ++ []) as Hraise.
  { intros e wb Eb Lb. rewrite (try_eq _ _ _ _ Eb). cbv beta iota.
    destruct (log_only_session _ _ _ _ Lb Hd Ht) as (db & Hdb & Htb & G).
    rewrite app_nil_r, <- Hr, <- (log_only_registrations _ _ Lb).
    destruct (is_TwoFactorRequired e) eqn:H2.
    - destruct (start_except_two_factor env (uuid4 env) username e wb db Hdb Htb H2)
        as (w' & ts & E' & _ & R'). cbv zeta in E'. rewrite E'. by eexists.
    - destruct (is_ChallengeRequired e) eqn:Hc.
      + destruct (start_except_challenge env (uuid4 env) username e wb db Hdb Htb H2 Hc)
          as (w' & ts1 & ts2 & E' & _ & R'). cbv zeta in E'. rewrite E'. by eexists.
      + destruct (start_except_other env (uuid4 env) username e wb db Hdb Htb H2 Hc)
          as (w' & ts & E' & _ & [(_ & R' & _) _]). cbv zeta in E'. rewrite E'. by eexists. }
  destruct (settle (login (cl env) username password) aborts) as [[|]|e].
  - destruct T as (wb & Eb & Rb & _). rewrite (try_eq _ _ _ _ Eb). simpl.
    eexists. split_and!; [done|done|congruence].
  - destruct T as (wb & Eb & Lb). exact (Hraise _ _ Eb Lb).
  - destruct T as (wb & Eb & Lb). exact (Hraise _ _ Eb Lb).
Qed.

(** X3.  Start always answers a page, whatever the provider does: the
    account-added page when the login returns a true value, the 2FA or the
    code page when it raises [TwoFactorRequired] or [ChallengeRequired],
    and the error page otherwise, with the message of the exception or
    "Falha no login (sem desafio)" for a false return value.  The pool is
    called once on success and not at all otherwise. *)
Theorem start_always_answers env username password proxy w :
  let r := ui_start_add_account env username password proxy w in
  exists p,
    r.2 = Ok p
    /\ outcome_of p = start_outcome env username password
    /\ registrations r.1 = registrations w ++
         match settle (login (cl env) username password) aborts with
         | Ok true => [(username, password, proxy)]
         | _ => []
         end.
Proof. exact (start_classified env username password proxy w). Qed.

(** X4.  When the login fails without asking for a code, start answers
    the error page with the failure message and leaves the session
    stored as created -- status INIT, null flow, trimmed username -- with
    the error logged last; nothing is registered. *)
Theorem start_failure_keeps_init env username password proxy w message :
  start_failure_message env username password = Some message ->
  let r := ui_start_add_account env username password proxy w in
  exists d prior ts,
    r.2 = Ok (StartError message (_console (get_logs d)))
    /\ files r.1 !! uuid4 env = Some (Json d)
    /\ d_status d = Some INIT /\ d_flow d = Some None
    /\ d_username d = Some (strip username) /\ d_password d = Some password
    /\ get_logs d = prior ++
         [log_entry ts ("[ERRO] Falha ao iniciar o login: " +:+ message)]
    /\ registrations r.1 = registrations w.
Proof.
  intros Hm r. subst r.
  destruct (start_reaches_try env username password proxy w)
    as (d & w4 & -> & Hd & Ht & Hu & Hp & Hs & Hf & Hr).
  pose proof (start_try_spec env (uuid4 env) username password proxy w4
                (placed_uuid4 env w4)) as T.
  unfold start_failure_message in Hm.
  assert (exists e wb,
    start_try env (uuid4 env) username password proxy w4 = (wb, Raise e)
    /\ log_only w4 wb /\ exn_str e = message
    /\ is_TwoFactorRequired e = false /\ is_ChallengeRequired e = false)
    as (e & wb & Eb & Lb & <- & H2 & Hc).
  { destruct (settle (login (cl env) username password) aborts) as [[|]|e];
      [done| |].
    - destruct T as (wb & Eb & Lb). simplify_eq. by eexists _, wb.
    - destruct T as (wb & Eb & Lb).
      destruct (is_TwoFactorRequired e) eqn:H2; [done|].
      destruct (is_ChallengeRequired e) eqn:Hc; [done|]. simpl in Hm. simplify_eq.
      by exists e, wb. }
  rewrite (try_eq _ _ _ _ Eb). cbv beta iota.
  destruct (log_only_session _ _ _ _ Lb Hd Ht) as (db & Hdb & Htb & G).
  destruct G as (_ & Gu & Gp & _ & Gs & Gf & _).
  destruct (start_except_other env (uuid4 env) username e wb db Hdb Htb H2 Hc)
    as (w' & ts & E' & H' & [(_ & R' & _) _]).
  cbv zeta in E', H'. rewrite E'. simpl.
  eexists _, (get_logs db), ts.
  split_and!; try done; simpl; try congruence.
  by rewrite R', (log_only_registrations _ _ Lb).
Qed.

(** X5.  Whatever the provider does, start makes exactly these calls on
    it: [set_proxy] when a proxy is given, then one [login] with the
    username and password as given.  A [set_proxy] that raises does not
    keep the login from being tried, and start never calls
    [two_factor_login] or [challenge_resolve]. *)
Theorem start_provider_calls env username password proxy w :
  provider_calls (ui_start_add_account env username password proxy w).1
  = provider_calls w ++ proxy_calls proxy ++ [Login username password].
Proof.
  destruct (start_reaches_try_full env username password proxy w)
    as (d & w4 & -> & _ & _ & _ & _ & _ & _ & _ & _ & P).
  pose proof (start_try_calls env (uuid4 env) username password proxy w4
                (placed_uuid4 env w4)) as Pt.
  unfold try_except.
  destruct (start_try env (uuid4 env) username password proxy w4) as [wb [p|e]];
    simpl in *.
  - by rewrite Pt, P, <- app_assoc.
  - rewrite (start_except_keeps_calls env (uuid4 env) username e wb).
    by rewrite Pt, P, <- app_assoc.
Qed.

(** ** Confirm: success, missing keys, calls *)

(** X6.  Confirm on a stored session whose code the provider accepts
    answers the completed page, which stands for SUCCESS, registers the
    stored username, password and proxy with the pool once, and deletes
    the file. *)
Theorem confirm_accepted_registers env onboarding_id code w d username password :
  files w !! onboarding_id = Some (Json d) ->
  d_username d = Some username -> d_password d = Some password ->
  code_accepted env (default (Some CHALLENGE) (d_flow d)) username password code
    = true ->
  let r := ui_confirm_code env onboarding_id code w in
  r.2 = Ok (Completed username)
  /\ outcome_of (Completed username) = SUCCESS
  /\ registrations r.1
     = registrations w ++ [(username, password, mjoin (d_proxy d))]
  /\ files r.1 !! onboarding_id = None.
Proof.
  intros Hd Hu Hp Ha r.
  destruct (confirm_outcome env onboarding_id code w d username password Hd Hu Hp)
    as [(_ & E & R & F) | (Hn & _)]; [done | congruence].
Qed.

Lemma confirm_no_username env onboarding_id code w d :
  files w !! onboarding_id = Some (Json d) -> dict_truthy d = true ->
  d_username d = None ->
  ui_confirm_code env onboarding_id code w = (w, Raise (Exn KeyError "'username'")).
Proof.
  intros Hd Ht Hu. unfold ui_confirm_code.
  rewrite (bind_eq _ _ _ _ (load_json _ _ _ Hd)). cbv beta iota.
  by rewrite Ht, Hu.
Qed.

Lemma confirm_no_password env onboarding_id code w d username :
  files w !! onboarding_id = Some (Json d) ->
  d_username d = Some username -> d_password d = None ->
  ui_confirm_code env onboarding_id code w = (w, Raise (Exn KeyError "'password'")).
Proof.
  intros Hd Hu Hp. unfold ui_confirm_code.
  rewrite (bind_eq _ _ _ _ (load_json _ _ _ Hd)). cbv beta iota.
  by rewrite (has_username_truthy d username Hu), Hu, Hp.
Qed.

(** X7.  Confirm reads the username and the password before its [try]
    statement: on a stored record that lacks either key the [KeyError]
    escapes, and nothing has been logged, called or changed. *)
Theorem confirm_missing_key_escapes env onboarding_id code w d :
  files w !! onboarding_id = Some (Json d) -> dict_truthy d = true ->
  d_username d = None \/ d_password d = None ->
  exists key,
    ui_confirm_code env onboarding_id code w = (w, Raise (Exn KeyError key))
    /\ key = match d_username d with
             | Some _ => "'password'"
             | None => "'username'"
             end.
Proof.
  intros Hd Ht Hk. destruct (d_username d) as [username|] eqn:Hu.
  - destruct Hk as [|Hp]; [done|]. eexists. split; [|done].
    exact (confirm_no_password env onboarding_id code w d username Hd Hu Hp).
  - eexists. split; [|done].
    exact (confirm_no_username env onboarding_id code w d Hd Ht Hu).
Qed.

Lemma confirm_except_keeps_calls env onboarding_id e :
  steps (keeps provider_calls) (confirm_except env onboarding_id e).
Proof. unfold confirm_except. steps_go. Qed.

(** After the branch, confirm makes no further call on the provider. *)
Lemma confirm_tail_calls env onboarding_id username password proxy (v : M unit) w :
  provider_calls
    (try_except (v ;; confirm_register env onboarding_id username password proxy)
       (fun e => Some (confirm_except env onboarding_id e)) w).1
  = provider_calls (v w).1.
Proof.
  unfold try_except, mbind, M_bind.
  destruct (v w) as [wv [[]|e]]; simpl.
  - assert (steps (keeps provider_calls)
              (confirm_register env onboarding_id username password proxy)) as H
      by (unfold confirm_register; steps_go).
    specialize (H wv). unfold keeps in H.
    destruct (confirm_register env onboarding_id username password proxy wv)
      as [w' [a|e]]; simpl in *; [done|].
    by rewrite (confirm_except_keeps_calls env onboarding_id e w').
  - apply confirm_except_keeps_calls.
Qed.

(** The calls of the [TWO_FACTOR] branch. *)
Lemma confirm_two_factor_calls env onboarding_id username password code w :
  placed onboarding_id w ->
  provider_calls (confirm_two_factor env onboarding_id username password code w).1
  = provider_calls w ++ two_factor_calls env username password code.
Proof.
  intros Hp.
  destruct (confirm_two_factor env onboarding_id username password code w)
    as [wf r] eqn:E.
  unfold confirm_two_factor in E. unfold two_factor_calls.
  destruct (method_spec (Login username password) (login (cl env) username password)
              _ _ _ w (lift_handler_tame onboarding_id (manual_input_code (cl env)))
              Hp)
    as (w1 & E1 & L1 & P1).
  destruct (method_spec (TwoFactorLogin code) (two_factor_login (cl env) code)
              _ _ _ w1 (lift_handler_tame onboarding_id (manual_input_code (cl env)))
              ltac:(placed_go))
    as (w2 & E2 & L2 & P2).
  assert (forall k : M unit,
    (try_except
       (method (Login username password) (login (cl env) username password)
               (lift_handler (manual_input_code (cl env))) ;; mret tt)
       (fun e => if is_TwoFactorRequired e then Some (mret tt) else None) ≫= fun _ => k) w
    = match settle (login (cl env) username password) (manual_input_code (cl env)) with
      | Ok _ => k w1
      | Raise e => if is_TwoFactorRequired e then k w1 else (w1, Raise e)
      end) as Hfirst.
  { intros k. erewrite bind_eq; [|erewrite try_eq; [|erewrite bind_eq; [|exact E1]]; reflexivity].
    destruct (settle (login (cl env) username password) _) as [ok|e]; [done|].
    by destruct (is_TwoFactorRequired e). }
  rewrite Hfirst in E. clear Hfirst.
  lazymatch type of E with
  | context [(try_except ?b ?h ≫= ?k) w1] =>
      destruct (try_catch_false b h w1 _ _ E2) as (w3 & E3 & [L3 P3]);
        [|rewrite (bind_eq _ k _ _ E3) in E]
  end.
  { intros e.
    destruct (warn_false env onboarding_id
                ("[WARN] two_factor_login falhou: " +:+ exn_str e) w2
                ltac:(placed_go))
      as (v' & Ev & Qv).
    by eexists _, v'. }
  cbv beta iota in E.
  assert (provider_calls
            ((if negb match settle (two_factor_login (cl env) code)
                              (manual_input_code (cl env)) with
                      | Ok ok => ok
                      | Raise _ => false
                      end
              then raise (Exn LoginRequired "2FA não aceito")
              else _append_log env onboarding_id "2FA validado com sucesso") w3).1
          = provider_calls w ++ [Login username password; TwoFactorLogin code])
    as Hlast.
  { destruct (negb _).
    - simpl. rewrite P3, P2, P1. by rewrite <- app_assoc.
    - rewrite (append_log_keeps_calls env onboarding_id _ w3), P3, P2, P1.
      by rewrite <- app_assoc. }
  destruct (settle (login (cl env) username password) _) as [ok|e].
  - by rewrite E in Hlast.
  - destruct (is_TwoFactorRequired e).
    + by rewrite E in Hlast.
    + by simplify_eq.
Qed.

(** X8.  In the TWO_FACTOR branch confirm calls the provider login with
    the stored username and password, then [two_factor_login(code)]; when
    the login raises anything but [TwoFactorRequired] the second call is
    not made.  No [challenge_resolve] call is made. *)
Theorem two_factor_branch_calls env onboarding_id code w d username password :
  files w !! onboarding_id = Some (Json d) ->
  d_username d = Some username -> d_password d = Some password ->
  d_flow d = Some (Some TWO_FACTOR) ->
  provider_calls (ui_confirm_code env onboarding_id code w).1
  = provider_calls w ++ proxy_calls (mjoin (d_proxy d)) ++
    Login username password ::
      match settle (login (cl env) username password)
                   (manual_input_code (cl env)) with
      | Ok _ => [TwoFactorLogin code]
      | Raise e => if is_TwoFactorRequired e then [TwoFactorLogin code] else []
      end.
Proof.
  intros Hd Hu Hp Hf.
  destruct (confirm_reaches_try env onboarding_id code w d username password Hd Hu Hp)
    as (d1 & w3 & ts & extra & -> & Hd1 & _ & _ & _ & _ & P1).
  cbv zeta. rewrite Hf. simpl default. cbv beta iota.
  rewrite confirm_tail_calls, confirm_two_factor_calls, P1
    by exact (placed_stored _ _ _ Hd1).
  unfold two_factor_calls. by rewrite <- app_assoc.
Qed.

(** ** Registration, and what happens to a stored session *)

Lemma confirm_falsy env onboarding_id code w d :
  files w !! onboarding_id = Some (Json d) -> dict_truthy d = false ->
  ui_confirm_code env onboarding_id code w = (w, Ok SessionExpired).
Proof.
  intros Hd Ht. unfold ui_confirm_code.
  rewrite (bind_eq _ _ _ _ (load_json _ _ _ Hd)). cbv beta iota. by rewrite Ht.
Qed.

(** Cancel: the page, the pool, and the file of a stored session. *)
Lemma cancel_spec env onboarding_id w :
  (forall e, files w !! onboarding_id <> Some (Inaccessible e)) ->
  exists w',
    ui_cancel env onboarding_id w = (w', Ok Canceled)
    /\ registrations w' = registrations w
    /\ (forall d, files w !! onboarding_id = Some (Json d) -> dict_truthy d = true ->
          files w' !! onboarding_id = None)
    /\ ((forall d, files w !! onboarding_id = Some (Json d) -> dict_truthy d = false) ->
          w' = w).
Proof.
  intros Ha.
  destruct (files w !! onboarding_id) as [[|d|e]|] eqn:E; [| |by destruct (Ha e)|].
  - exists w. split; [apply cancel_no_session; by rewrite (load_unreadable _ _ E)|].
    split_and!; done.
  - pose proof (placed_stored _ _ _ E) as Hp.
    destruct (dict_truthy d) eqn:Ht.
    + destruct (ui_cancel env onboarding_id w) as [wf r] eqn:Ec.
      unfold ui_cancel in Ec.
      rewrite (bind_eq _ _ _ _ (load_json _ _ _ E)) in Ec. simpl in Ec.
      rewrite Ht in Ec.
      destruct (append_quiet env onboarding_id "Sessão cancelada pelo usuário" w Hp)
        as (w1 & E1 & [L1 _]).
      pose proof (log_only_registrations _ _ L1) as R1.
      erewrite bind_eq in Ec;
        [|erewrite bind_eq; [|exact E1]; apply delete_at; placed_go].
      finish Ec. eexists. split; [reflexivity|]. simpl.
      split_and!; [done| |].
      * intros d' _ _. apply lookup_delete_placed. placed_go.
      * intros H. specialize (H d eq_refl). congruence.
    + exists w. split.
      * unfold ui_cancel. rewrite (bind_eq _ _ _ _ (load_json _ _ _ E)).
        simpl. by rewrite Ht.
      * split_and!; [done| |done]. intros d' [= <-]. congruence.
  - exists w. split; [apply cancel_no_session; by rewrite (load_absent _ _ E)|].
    split_and!; done.
Qed.

(** X9.  Whatever the request, an account is registered exactly when the
    answer is a success page: then the pool has received one more call,
    and with any other page it has received none. *)
Theorem registered_iff_success env r w p :
  (handle env r w).2 = Ok p ->
  (outcome_of p = SUCCESS ->
     exists t, registrations (handle env r w).1 = registrations w ++ [t])
  /\ (outcome_of p <> SUCCESS ->
     registrations (handle env r w).1 = registrations w).
Proof.
  destruct r as [username password proxy|onboarding_id code|onboarding_id]; simpl.
  - destruct (start_classified env username password proxy w) as (p' & E & O & R).
    rewrite E. intros [= <-]. rewrite R, O. unfold start_outcome.
    destruct (settle (login (cl env) username password) aborts) as [[|]|e].
    + split; [by eexists | done].
    + split; [done | by rewrite app_nil_r].
    + split; [|by rewrite app_nil_r].
      by destruct (is_TwoFactorRequired e), (is_ChallengeRequired e).
  - destruct (files w !! onboarding_id) as [[|d|e]|] eqn:E;
      [| |by rewrite (confirm_inaccessible _ _ _ _ _ E)|].
    + rewrite confirm_no_session by (by rewrite (load_unreadable _ _ E)).
      intros [= <-]. done.
    + destruct (dict_truthy d) eqn:Ht.
      2: { rewrite (confirm_falsy env onboarding_id code w d E Ht).
           intros [= <-]. done. }
      destruct (d_username d) as [username|] eqn:Hu.
      2: { by rewrite (confirm_no_username env onboarding_id code w d E Ht Hu). }
      destruct (d_password d) as [password|] eqn:Hp.
      2: { by rewrite (confirm_no_password env onboarding_id code w d username E Hu Hp). }
      destruct (confirm_outcome env onboarding_id code w d username password E Hu Hp)
        as [(_ & Er & R & _) | (_ & m & d' & ts1 & mid & ts2 & Er & _ & _ & _ & R)];
        rewrite Er; intros [= <-]; simpl.
      * split; [by eexists | done].
      * split; [done | by intros _].
    + rewrite confirm_no_session by (by rewrite (load_absent _ _ E)).
      intros [= <-]. done.
  - destruct (files w !! onboarding_id) as [[| |e]|] eqn:E;
      [| |by rewrite (cancel_inaccessible _ _ _ _ E)|];
      (destruct (cancel_spec env onboarding_id w) as (w' & -> & R & _);
       [intros e; by rewrite E | intros [= <-]; done]).
Qed.

(** X10.  A stored session is never rewritten by a later request: after
    confirm, cancel, or a start whose new id leads to another entry, its
    file is either gone or holds the same record with log entries
    appended -- id, username, password, proxy, status, flow and creation
    time as before. *)
Theorem stored_session_only_grows env r w j d :
  files w !! j = Some (Json d) -> dict_truthy d = true ->
  match r with
  | Start _ _ _ => same_file (files w) (uuid4 env) j = false
  | _ => True
  end ->
  files (handle env r w).1 !! j = None
  \/ exists d', files (handle env r w).1 !! j = Some (Json d') /\ grown d d'.
Proof.
  intros Hd Ht Hr.
  destruct (same_file (files w) (target env r) j) eqn:Hs.
  2: { right. exists d. split; [|apply grown_refl].
       rewrite <- Hd. by apply (handle_apart j env r w). }
  assert (files (handle env r w).1 !! j = files (handle env r w).1 !! target env r)
    as ->.
  { apply same_file_lookup.
    erewrite same_file_locate; [exact Hs|].
    apply (handle_keeps_paths env r w). }
  rewrite (same_file_lookup _ _ _ Hs) in Hd.
  destruct r as [username password proxy|onboarding_id code|onboarding_id];
    simpl in *; [congruence| |].
  - destruct (d_username d) as [username|] eqn:Hu.
    2: { right. rewrite (confirm_no_username env onboarding_id code w d Hd Ht Hu).
         exists d. split; [done | apply grown_refl]. }
    destruct (d_password d) as [password|] eqn:Hp.
    2: { right.
         rewrite (confirm_no_password env onboarding_id code w d username Hd Hu Hp).
         exists d. split; [done | apply grown_refl]. }
    destruct (confirm_outcome env onboarding_id code w d username password Hd Hu Hp)
      as [(_ & _ & _ & F) | (_ & m & d' & ts1 & mid & ts2 & _ & F & G & _)].
    + by left.
    + right. by exists d'.
  - left. destruct (cancel_spec env onboarding_id w) as (w' & -> & _ & F & _).
    + intros e. by rewrite Hd.
    + by apply (F d).
Qed.

(** The session start leaves when the login asks for a code. *)
Lemma start_suspended env username password proxy w e f :
  settle (login (cl env) username password) aborts = Raise e ->
  suspended_flow e = Some f ->
  exists d,
    files (ui_start_add_account env username password proxy w).1 !! uuid4 env
      = Some (Json d)
    /\ d_username d = Some (strip username)
    /\ d_password d = Some password
    /\ d_proxy d = Some (stored_proxy proxy)
    /\ d_status d = Some NEED_CODE
    /\ d_flow d = Some (Some f)
    /\ registrations (ui_start_add_account env username password proxy w).1
       = registrations w.
Proof.
  intros He Hf.
  destruct (start_reaches_try_full env username password proxy w)
    as (d & w4 & -> & Hd & Ht & Hu & Hp & Hx & Hs & Hfl & Hr & _).
  pose proof (start_try_spec env (uuid4 env) username password proxy w4
                (placed_uuid4 env w4)) as T.
  rewrite He in T. destruct T as (wb & Eb & Lb).
  rewrite (try_eq _ _ _ _ Eb). cbv beta iota.
  destruct (log_only_session _ _ _ _ Lb Hd Ht) as (db & Hdb & Htb & G).
  destruct G as (_ & Gu & Gp & Gx & Gs & Gf & _).
  unfold suspended_flow in Hf.
  destruct (is_TwoFactorRequired e) eqn:H2.
  - simplify_eq.
    destruct (start_except_two_factor env (uuid4 env) username e wb db Hdb Htb H2)
      as (w' & ts & E' & H' & R').
    cbv zeta in E', H'. rewrite E'. simpl.
    eexists. split; [exact H'|]. simpl.
    split_and!; try congruence. by rewrite R', (log_only_registrations _ _ Lb).
  - destruct (is_ChallengeRequired e) eqn:Hc; [|done]. simplify_eq.
    destruct (start_except_challenge env (uuid4 env) username e wb db Hdb Htb H2 Hc)
      as (w' & ts1 & ts2 & E' & H' & R').
    cbv zeta in E', H'. rewrite E'. simpl.
    eexists. split; [exact H'|]. simpl.
    split_and!; try congruence. by rewrite R', (log_only_registrations _ _ Lb).
Qed.

(** X11.  Start, then confirm.  When start suspends for a code and a
    later confirm on the session id, in any environment, has its code
    accepted, the account registered is the one stored, not the one
    typed: the username trimmed, the password as given, the proxy trimmed
    or none when it was empty.  It is registered once and the file is
    gone. *)
Theorem start_then_confirm env1 env2 username password proxy code w e f :
  settle (login (cl env1) username password) aborts = Raise e ->
  suspended_flow e = Some f ->
  code_accepted env2 (Some f) (strip username) password code = true ->
  let w1 := (ui_start_add_account env1 username password proxy w).1 in
  let r := ui_confirm_code env2 (uuid4 env1) code w1 in
  r.2 = Ok (Completed (strip username))
  /\ registrations r.1
     = registrations w ++ [(strip username, password, stored_proxy proxy)]
  /\ files r.1 !! uuid4 env1 = None.
Proof.
  intros He Hf Ha w1 r. subst w1 r.
  destruct (start_suspended env1 username password proxy w e f He Hf)
    as (d & Hd & Hu & Hp & Hx & Hs & Hfl & R).
  destruct (confirm_outcome env2 (uuid4 env1) code _ d (strip username) password
              Hd Hu Hp) as [(_ & E & R' & F) | (Hn & _)].
  - rewrite Hx in R'. simpl in R'. split_and!; [done| |done]. by rewrite R', R.
  - rewrite Hfl in Hn.
    change (default (Some CHALLENGE) (Some (Some f))) with (Some f) in Hn.
    congruence.
Qed.

(** X12.  A rejected code can be retried: when a first confirm on a
    stored session has its code rejected and a second confirm, in any
    environment, has its code accepted, the second answers the completed
    page; over both requests the pool is called exactly once, with the
    stored username, password and proxy, and the file is gone. *)
Theorem retry_after_rejected_code env1 env2 onboarding_id code1 code2 w d
    username password :
  files w !! onboarding_id = Some (Json d) ->
  d_username d = Some username -> d_password d = Some password ->
  code_accepted env1 (default (Some CHALLENGE) (d_flow d)) username password code1
    = false ->
  code_accepted env2 (default (Some CHALLENGE) (d_flow d)) username password code2
    = true ->
  let w1 := (ui_confirm_code env1 onboarding_id code1 w).1 in
  let r := ui_confirm_code env2 onboarding_id code2 w1 in
  r.2 = Ok (Completed username)
  /\ registrations r.1
     = registrations w ++ [(username, password, mjoin (d_proxy d))]
  /\ files r.1 !! onboarding_id = None.
Proof.
  intros Hd Hu Hp Hn Ha w1 r. subst w1 r.
  destruct (confirm_outcome env1 onboarding_id code1 w d username password Hd Hu Hp)
    as [(Ha1 & _) | (_ & m & d' & ts1 & mid & ts2 & _ & Hd' & G & _ & R)];
    [congruence|].
  destruct G as (_ & Gu & Gp & Gx & _ & Gf & _).
  rewrite <- Gu in Hu. rewrite <- Gp in Hp.
  destruct (confirm_outcome env2 onboarding_id code2 _ d' username password
              Hd' Hu Hp) as [(_ & E & R' & F) | (Hn2 & _)].
  - split_and!; [done| |done]. by rewrite R', R, Gx.
  - rewrite Gf in Hn2. congruence.
Qed.

(** ** The event log and the console *)

(** X13.  Successive log appends keep the order of the calls: after
    logging a list of messages to a stored session, its log is the old
    log followed by one entry per message, in order, stamped with
    successive readings of the clock; nothing else of the record has
    changed. *)
Theorem append_logs_in_order env onb_id msgs w d :
  files w !! onb_id = Some (Json d) -> dict_truthy d = true ->
  exists w' d',
    append_logs env onb_id msgs w = (w', Ok tt)
    /\ files w' !! onb_id = Some (Json d')
    /\ get_logs d' = get_logs d ++ entries_from env (clock_reads w) msgs
    /\ grown d d'
    /\ clock_reads w' = clock_reads w + length msgs.
Proof.
  revert w d. induction msgs as [|msg rest IH]; intros w d Hd Ht; simpl.
  - exists w, d. split_and!; [done|done|by rewrite app_nil_r|apply grown_refl|lia].
  - pose proof (append_log_at env onb_id msg w d Hd Ht) as E1.
    rewrite (bind_eq _ _ _ _ E1). cbv beta iota.
    match goal with
    | |- context [append_logs env onb_id rest ?w1] =>
        destruct (IH w1 _ (lookup_insert_placed _ _ w (placed_stored _ _ _ Hd))
                    (dict_truthy_set_logs _ _))
          as (w' & d' & E' & Hd' & Hl & G & Hc)
    end.
    exists w', d'. simpl in Hl, Hc. split_and!; [done|done| | |lia].
    + rewrite Hl, get_logs_set_logs. by rewrite <- app_assoc.
    + eapply grown_trans; [apply grown_set_logs | exact G].
Qed.

Lemma last_200_short logs : length logs <= 200 -> last_200 logs = logs.
Proof.
  intros H. unfold last_200. by replace (length logs - 200) with 0 by lia.
Qed.

Lemma last_200_recent older recent :
  length recent = 200 -> last_200 (older ++ recent) = recent.
Proof.
  intros H. unfold last_200. rewrite length_app, H.
  replace (length older + 200 - 200) with (length older) by lia.
  apply drop_app_length.
Qed.

(** X14.  The console shows the log joined by newlines when it has at
    most 200 entries, only the last 200 entries when it has more, and a
    placeholder line when it is empty. *)
Theorem console_window :
  (forall logs, logs <> [] -> length logs <= 200 ->
     _console logs = String.concat newline logs)
  /\ (forall older recent, length recent = 200 ->
        _console (older ++ recent) = String.concat newline recent)
  /\ _console [] = "[console] aguardando eventos…".
Proof.
  split_and!.
  - intros logs Hne Hlen. unfold _console. rewrite last_200_short by done.
    by destruct logs.
  - intros older recent Hlen. unfold _console.
    rewrite last_200_recent by done.
    destruct (older ++ recent) eqn:E; [|done].
    apply (f_equal length) in E. rewrite length_app, Hlen in E. simpl in E. lia.
  - done.
Qed.

(** ** The challenge branch *)

(** X16.  In the CHALLENGE branch, when the login under the
    code-returning handler yields success, confirm makes no explicit
    [challenge_resolve] call: the provider sees the login only, and the
    account is registered and the file deleted. *)
Theorem login_with_handler_suffices env onboarding_id code w d username password :
  files w !! onboarding_id = Some (Json d) ->
  d_username d = Some username -> d_password d = Some password ->
  d_flow d = Some (Some CHALLENGE) ->
  login_succeeds env username password code = true ->
  let r := ui_confirm_code env onboarding_id code w in
  provider_calls r.1
    = provider_calls w ++ proxy_calls (mjoin (d_proxy d)) ++ [Login username password]
  /\ r.2 = Ok (Completed username)
  /\ registrations r.1
     = registrations w ++ [(username, password, mjoin (d_proxy d))]
  /\ files r.1 !! onboarding_id = None.
Proof.
  intros Hd Hu Hp Hf Hl r.
  destruct (confirm_challenge_branch env onboarding_id code w d username password
              Hd Hu Hp) as [P O]; [by rewrite Hf|].
  fold r in P, O. rewrite Hl in P, O. simpl in O.
  by destruct O as (E & R & F).
Qed.

(** ** Sessions that are not there *)

(** X17.  Confirm on an id at whose path there is no file answers the
    expired-session page, which alone stands for NOT_FOUND; nothing is
    raised and the world is left as it was. *)
Theorem confirm_unknown_session env onboarding_id code w :
  files w !! onboarding_id = None ->
  ui_confirm_code env onboarding_id code w = (w, Ok SessionExpired)
  /\ title SessionExpired = "Sessão expirada"
  /\ outcome_of SessionExpired = NOT_FOUND
  /\ (forall p, outcome_of p = NOT_FOUND -> p = SessionExpired).
Proof.
  intros H. split_and!.
  - apply confirm_no_session. by rewrite load_absent.
  - done.
  - done.
  - by intros [].
Qed.

(** X18.  Cancel twice.  On an id whose path [p.exists()] does not raise
    on, cancel answers the canceled page and does not raise.  On a stored
    session the first call logs the cancellation and deletes the file;
    after it no session is stored under the id, and a second call changes
    nothing. *)
Theorem cancel_twice env1 env2 onboarding_id w :
  (forall e, files w !! onboarding_id <> Some (Inaccessible e)) ->
  let r1 := ui_cancel env1 onboarding_id w in
  let r2 := ui_cancel env2 onboarding_id r1.1 in
  r1.2 = Ok Canceled
  /\ r2 = (r1.1, Ok Canceled)
  /\ outcome_of Canceled = CANCELED_
  /\ (forall d, files w !! onboarding_id = Some (Json d) -> dict_truthy d = true ->
        files r1.1 = delete onboarding_id (files w)
        /\ saved r1.1 = saved w ++
             [(onboarding_id,
               set_logs d (get_logs d ++
                 [log_entry (strftime_HMS (localtime env1 (clock_reads w)))
                            "Sessão cancelada pelo usuário"]))])
  /\ (forall d, files r1.1 !! onboarding_id = Some (Json d) -> dict_truthy d = false).
Proof.
  intros Ha r1 r2. subst r2 r1.
  destruct (files w !! onboarding_id) as [[|d|e]|] eqn:E; [| |by destruct (Ha e)|].
  - rewrite (cancel_no_session env1) by (by rewrite (load_unreadable _ _ E)).
    simpl. rewrite (cancel_no_session env2) by (by rewrite (load_unreadable _ _ E)).
    split_and!; try done. intros d. by rewrite E.
  - pose proof (placed_stored _ _ _ E) as Hp.
    destruct (dict_truthy d) eqn:Ht.
    + assert (ui_cancel env1 onboarding_id w =
        (World (delete onboarding_id (files w))
           (saved w ++ [(onboarding_id, set_logs d (get_logs d ++
              [log_entry (strftime_HMS (localtime env1 (clock_reads w)))
                         "Sessão cancelada pelo usuário"]))])
           (provider_calls w) (registrations w) (S (clock_reads w)), Ok Canceled)) as ->.
      { unfold ui_cancel.
        rewrite (bind_ok _ _ _ _ _ (load_json _ _ _ E)). simpl. rewrite Ht.
        unfold mbind at 1, M_bind at 1.
        rewrite (bind_ok _ _ _ _ _ (append_log_at _ _ _ _ _ E Ht)).
        rewrite delete_at
          by (eapply placed_same_paths; [apply locate_insert | exact Hp]).
        simpl. by rewrite dir_delete_insert. }
      simpl. rewrite cancel_no_session
        by (rewrite load_absent; [done | exact (lookup_delete_placed _ w Hp)]).
      split_and!; try done.
      * intros d' Hd'. by simplify_eq.
      * intros d'. by rewrite (lookup_delete_placed _ w Hp).
    + assert (ui_cancel env1 onboarding_id w = (w, Ok Canceled)) as Hc1.
      { unfold ui_cancel. rewrite (bind_ok _ _ _ _ _ (load_json _ _ _ E)).
        simpl. by rewrite Ht. }
      rewrite Hc1. simpl.
      assert (ui_cancel env2 onboarding_id w = (w, Ok Canceled)) as ->.
      { unfold ui_cancel. rewrite (bind_ok _ _ _ _ _ (load_json _ _ _ E)).
        simpl. by rewrite Ht. }
      split_and!; try done.
      * intros d' Hd'. congruence.
      * intros d' Hd'. congruence.
  - rewrite (cancel_no_session env1) by (by rewrite (load_absent _ _ E)).
    simpl. rewrite (cancel_no_session env2) by (by rewrite (load_absent _ _ E)).
    split_and!; try done. intros d. by rewrite E.
Qed.

(** ** The further properties at work on sample requests *)

Lemma other_sessions_untouched_witness :
  same_file (files Scenario.two_sessions) "./5f0c" "a1b2" = false
  /\ files (handle (Sample.env Sample.strict_two_factor) (Cancel "./5f0c")
              Scenario.two_sessions).1 !! "a1b2"
     = Some (Json (Sample.session TWO_FACTOR))
  /\ files (handle (Sample.env Sample.strict_two_factor) (Cancel "./5f0c")
              Scenario.two_sessions).1 !! "5f0c" = None.
Proof.
  split; [reflexivity|]. split; [|reflexivity].
  rewrite (other_sessions_untouched (Sample.env Sample.strict_two_factor)
             (Cancel "./5f0c") Scenario.two_sessions "a1b2" eq_refl).
  reflexivity.
Defined.

Lemma start_failure_keeps_init_witness :
  start_failure_message (Sample.env Scenario.unreachable) "bob" "pw"
    = Some "connection refused"
  /\ exists d,
       files (ui_start_add_account (Sample.env Scenario.unreachable)
                "bob" "pw" None initial).1 !! "5f0c" = Some (Json d)
       /\ d_status d = Some INIT /\ d_flow d = Some None.
Proof.
  split; [reflexivity|].
  destruct (start_failure_keeps_init (Sample.env Scenario.unreachable)
              "bob" "pw" None initial "connection refused" eq_refl)
    as (d & prior & ts & _ & Hd & Hs & Hf & _).
  exists d. exact (conj Hd (conj Hs Hf)).
Defined.

Lemma confirm_accepted_registers_witness :
  code_accepted (Sample.env Scenario.lenient_two_factor) (Some TWO_FACTOR)
    "bob" "pw" "654321" = true
  /\ registrations
       (ui_confirm_code (Sample.env Scenario.lenient_two_factor) "5f0c" "654321"
          (Sample.waiting TWO_FACTOR)).1 = [("bob", "pw", None)]
  /\ files
       (ui_confirm_code (Sample.env Scenario.lenient_two_factor) "5f0c" "654321"
          (Sample.waiting TWO_FACTOR)).1 !! "5f0c" = None.
Proof.
  split; [reflexivity|].
  destruct (confirm_accepted_registers (Sample.env Scenario.lenient_two_factor)
              "5f0c" "654321" (Sample.waiting TWO_FACTOR)
              (Sample.session TWO_FACTOR) "bob" "pw"
              eq_refl eq_refl eq_refl eq_refl) as (_ & _ & R & F).
  exact (conj R F).
Defined.

Lemma confirm_missing_key_escapes_witness :
  dict_truthy Scenario.partial = true
  /\ d_username Scenario.partial = None
  /\ ui_confirm_code (Sample.env Sample.welcoming) "5f0c" "000000"
       Scenario.partial_world
     = (Scenario.partial_world, Raise (Exn KeyError "'username'")).
Proof.
  split; [reflexivity|]. split; [reflexivity|].
  destruct (confirm_missing_key_escapes (Sample.env Sample.welcoming)
              "5f0c" "000000" Scenario.partial_world Scenario.partial
              eq_refl eq_refl (or_introl eq_refl)) as (key & E & K).
  rewrite E, K. reflexivity.
Defined.

Lemma two_factor_branch_calls_witness :
  provider_calls
    (ui_confirm_code (Sample.env Scenario.unreachable) "5f0c" "000000"
       (Sample.waiting TWO_FACTOR)).1 = [Login "bob" "pw"]
  /\ provider_calls
       (ui_confirm_code (Sample.env Sample.strict_two_factor) "5f0c" "000000"
          (Sample.waiting TWO_FACTOR)).1
     = [Login "bob" "pw"; TwoFactorLogin "000000"].
Proof.
  split.
  - exact (two_factor_branch_calls (Sample.env Scenario.unreachable)
             "5f0c" "000000" (Sample.waiting TWO_FACTOR)
             (Sample.session TWO_FACTOR) "bob" "pw"
             eq_refl eq_refl eq_refl eq_refl).
  - exact (two_factor_branch_calls (Sample.env Sample.strict_two_factor)
             "5f0c" "000000" (Sample.waiting TWO_FACTOR)
             (Sample.session TWO_FACTOR) "bob" "pw"
             eq_refl eq_refl eq_refl eq_refl).
Defined.

Lemma registered_iff_success_witness :
  (handle (Sample.env Sample.welcoming) (Start "bob" "pw" None) initial).2
    = Ok (AccountAdded "bob")
  /\ exists t,
       registrations
         (handle (Sample.env Sample.welcoming) (Start "bob" "pw" None) initial).1
       = registrations initial ++ [t].
Proof.
  split; [reflexivity|].
  exact (proj1 (registered_iff_success (Sample.env Sample.welcoming)
                  (Start "bob" "pw" None) initial (AccountAdded "bob") eq_refl)
           eq_refl).
Defined.

Lemma stored_session_only_grows_witness :
  files (handle (Sample.env Sample.strict_two_factor) (Confirm "5f0c" "000000")
           (Sample.waiting TWO_FACTOR)).1 !! "5f0c" = None
  \/ exists d',
       files (handle (Sample.env Sample.strict_two_factor) (Confirm "5f0c" "000000")
                (Sample.waiting TWO_FACTOR)).1 !! "5f0c" = Some (Json d')
       /\ grown (Sample.session TWO_FACTOR) d'.
Proof.
  exact (stored_session_only_grows (Sample.env Sample.strict_two_factor)
           (Confirm "5f0c" "000000") (Sample.waiting TWO_FACTOR) "5f0c"
           (Sample.session TWO_FACTOR) eq_refl eq_refl I).
Defined.

Lemma start_then_confirm_witness :
  suspended_flow (Exn ChallengeRequired "awaiting_code_from_ui") = Some CHALLENGE
  /\ registrations
       (ui_confirm_code (Sample.env Sample.challenging) "5f0c" "123456"
          (ui_start_add_account (Sample.env Sample.challenging)
             "  bob " "pw" (Some " http://proxy:8080 ") initial).1).1
     = [("bob", "pw", Some "http://proxy:8080")].
Proof.
  split; [reflexivity|].
  exact (proj1 (proj2 (start_then_confirm (Sample.env Sample.challenging)
                         (Sample.env Sample.challenging)
                         "  bob " "pw" (Some " http://proxy:8080 ") "123456" initial
                         (Exn ChallengeRequired "awaiting_code_from_ui") CHALLENGE
                         eq_refl eq_refl eq_refl))).
Defined.

Lemma retry_after_rejected_code_witness :
  registrations
    (ui_confirm_code (Sample.env Scenario.lenient_two_factor) "5f0c" "654321"
       (ui_confirm_code (Sample.env Sample.strict_two_factor) "5f0c" "000000"
          (Sample.waiting TWO_FACTOR)).1).1
  = [("bob", "pw", None)].
Proof.
  exact (proj1 (proj2 (retry_after_rejected_code
                         (Sample.env Sample.strict_two_factor)
                         (Sample.env Scenario.lenient_two_factor)
                         "5f0c" "000000" "654321" (Sample.waiting TWO_FACTOR)
                         (Sample.session TWO_FACTOR) "bob" "pw"
                         eq_refl eq_refl eq_refl eq_refl eq_refl))).
Defined.

Lemma append_logs_in_order_witness :
  exists w' d',
    append_logs (Sample.env Sample.welcoming) "5f0c" ["A"; "B"; "C"]
      (Sample.waiting CHALLENGE) = (w', Ok tt)
    /\ files w' !! "5f0c" = Some (Json d')
    /\ get_logs d'
       = ["[09:05:00] Iniciando login para @bob";
          "[09:05:01] A"; "[09:05:02] B"; "[09:05:03] C"].
Proof.
  destruct (append_logs_in_order (Sample.env Sample.welcoming) "5f0c"
              ["A"; "B"; "C"] (Sample.waiting CHALLENGE) (Sample.session CHALLENGE)
              eq_refl eq_refl) as (w' & d' & E & Hd & Hl & _).
  exists w', d'. exact (conj E (conj Hd Hl)).
Defined.

Lemma login_with_handler_suffices_witness :
  login_succeeds (Sample.env Sample.challenging) "bob" "pw" "123456" = true
  /\ provider_calls
       (ui_confirm_code (Sample.env Sample.challenging) "5f0c" "123456"
          (Sample.waiting CHALLENGE)).1 = [Login "bob" "pw"].
Proof.
  split; [reflexivity|].
  exact (proj1 (login_with_handler_suffices (Sample.env Sample.challenging)
                  "5f0c" "123456" (Sample.waiting CHALLENGE)
                  (Sample.session CHALLENGE) "bob" "pw"
                  eq_refl eq_refl eq_refl eq_refl eq_refl)).
Defined.

Lemma confirm_unknown_session_witness :
  files initial !! "5f0c" = None
  /\ ui_confirm_code (Sample.env Sample.welcoming) "5f0c" "000000" initial
     = (initial, Ok SessionExpired).
Proof.
  split; [reflexivity|].
  exact (proj1 (confirm_unknown_session (Sample.env Sample.welcoming)
                  "5f0c" "000000" initial eq_refl)).
Defined.

Lemma cancel_twice_witness :
  ui_cancel (Sample.env Sample.welcoming) "5f0c"
    (ui_cancel (Sample.env Sample.challenging) "5f0c" (Sample.waiting CHALLENGE)).1
  = ((ui_cancel (Sample.env Sample.challenging) "5f0c" (Sample.waiting CHALLENGE)).1,
     Ok Canceled)
  /\ files (ui_cancel (Sample.env Sample.challenging) "5f0c"
              (Sample.waiting CHALLENGE)).1
     = delete "5f0c" (files (Sample.waiting CHALLENGE)).
Proof.
  destruct (cancel_twice (Sample.env Sample.challenging) (Sample.env Sample.welcoming)
              "5f0c" (Sample.waiting CHALLENGE)) as (_ & E & _ & H & _).
  { intros e H. discriminate H. }
  exact (conj E (proj1 (H (Sample.session CHALLENGE) eq_refl eq_refl))).
Defined.
